(** * vs-deband: the debanding pipelines of [debandshit.debanders] and
    [vsdeband.funcs], embedded as graph-building programs.

    The two source modules contain no pixel arithmetic: every function builds
    a chain of calls into the VapourSynth host, into [vstools], [vsrgtools],
    [vskernels], [vsmask], [vsexprtools], and into the debander classes of the
    package.  The embedding therefore keeps

    - the clip abstract (a type [Clip] with the three attributes the source
      reads: [format], [width], [height]);
    - every external callee as a field of a host interface, returning either
      a value or a raised exception;
    - the sequence of external calls a pipeline makes, as a log of events
      written by a small writer/error monad.

    All integer arithmetic of the source (radius scaling, threshold halving,
    downscaled dimensions) is translated to [Z]. *)

From Stdlib Require Import ZArith List Lia Bool.
From Stdlib Require QArith_base.
From stdpp Require Import base gmap strings list.

Local Open Scope Z_scope.

(** ** Python values that cross the module boundary *)

(** Python [float] literals and float parameters are carried as exact
    rationals: the source never computes with them, it only forwards them
    (and, in [guided_deband], tests their sign). *)
Abbreviation pyfloat := QArith_base.Q (only parsing).

(** [int | list[int]] parameters ([threshold], [grain], [thr], [grains]). *)
Inductive IntOrList :=
| IntVal (n : Z)
| IntList (l : list Z).

(** [float | list[float]] parameters. *)
Inductive FloatOrList :=
| FloatVal (x : pyfloat)
| FloatList (l : list pyfloat).

(** Values stored in keyword dictionaries ([f3kdb_args], [limflt_args],
    [**kwargs]). *)
Inductive Lit :=
| LNone
| LBool (b : bool)
| LInt (n : Z)
| LFloat (x : pyfloat)
| LStr (s : string)
| LInts (l : list Z)
| LFloats (l : list pyfloat).

(** A keyword dictionary ([KwargsT], [dict(...)], [**kwargs]). *)
Abbreviation Kwargs := (gmap string Lit) (only parsing).

(** [d |= e]: in-place dictionary merge, the right operand wins.  stdpp's
    union is left-biased, hence the swap. *)
Definition dict_ior (d e : Kwargs) : Kwargs := e ∪ d.

(** Python truthiness of the values the source tests with [if x:]. *)
Definition truthy_int_or_list (v : IntOrList) : bool :=
  match v with
  | IntVal n => negb (n =? 0)
  | IntList l => negb (bool_decide (l = []))
  end.

Definition Qis_zero (x : pyfloat) : bool := (QArith_base.Qnum x =? 0).

Definition Qis_pos (x : pyfloat) : bool := (0 <? QArith_base.Qnum x).

Definition truthy_float_or_list (v : FloatOrList) : bool :=
  match v with
  | FloatVal x => negb (Qis_zero x)
  | FloatList l => negb (bool_decide (l = []))
  end.

(** [vstools.to_arr]: a scalar becomes a one-element list, a list is kept. *)
Definition to_arr (v : IntOrList) : list Z :=
  match v with
  | IntVal n => [n]
  | IntList l => l
  end.

Definition to_arr_float (v : FloatOrList) : list pyfloat :=
  match v with
  | FloatVal x => [x]
  | FloatList l => l
  end.

(** [vstools.fallback(value, default)]: [default] when [value is None]. *)
Definition fallback {A} (value : option A) (dflt : A) : A :=
  match value with
  | Some v => v
  | None => dflt
  end.

(** ** Exceptions *)

(** What a [raise] carries.  [Exc] stands for instances of [Exception] (the
    ones an [except Exception:] clause catches); [BaseExc] for the
    [BaseException]s outside it ([KeyboardInterrupt], [SystemExit],
    [GeneratorExit]). *)
Inductive Raised :=
| Exc (cls : string) (msg : string)
| BaseExc (cls : string).

Inductive Result (A : Type) :=
| Ok (a : A)
| Raise (e : Raised).
Arguments Ok {A} a.
Arguments Raise {A} e.

(** ** Rounding of integer quotients *)

(** [round_half_even a b], for [0 < b]: the integer nearest to the rational
    [a / b], ties going to the even neighbour.  This is Python 3's [round]
    on the quotient. *)
Definition round_half_even (a b : Z) : Z :=
  let q := a / b in
  let r := a mod b in
  if 2 * r <? b then q
  else if b <? 2 * r then q + 1
  else if Z.even q then q else q + 1.

(** [round(a / b)] for Python ints [a], [b]: [/] is true division, [round]
    rounds half to even.  The quotient is taken exactly; the source only
    divides frame sizes and radii, for which the double-precision quotient
    rounds to the same integer.  [b = 0] raises [ZeroDivisionError]. *)
Definition py_round_div (a b : Z) : Result Z :=
  if b =? 0 then Raise (Exc "ZeroDivisionError" "division by zero")
  else if 0 <? b then Ok (round_half_even a b)
  else Ok (round_half_even (- a) (- b)).

(** [math.ceil(a / b)] for [0 < b], on the exact quotient. *)
Definition py_ceil_div (a b : Z) : Z := - ((- a) / b).

(** ** Video formats *)

Inductive SampleType := INTEGER | FLOAT.

(** The attributes of [vs.VideoFormat] the source reads. *)
Record VideoFormat := mkFormat {
  bits_per_sample : Z;
  sample_type : SampleType;
  subsampling_w : Z;
  subsampling_h : Z;
  num_planes : Z
}.

(** [vstools.ColorRange]: an [IntEnum] mirroring the [_ColorRange] frame
    property, [LIMITED = 1] and [FULL = 0]. *)
Inductive ColorRange := LIMITED | FULL.

Definition ColorRange_value (r : ColorRange) : Z :=
  match r with LIMITED => 1 | FULL => 0 end.

Definition is_full (r : ColorRange) : bool :=
  match r with FULL => true | LIMITED => false end.

(** [GuidedFilterMode] lives in [vsdeband.types]; only [GRADIENT] is named by
    the source, the other members are kept by name. *)
Inductive GuidedFilterMode :=
| GRADIENT
| OtherMode (name : string).

(** [RemoveGrainMode] members used by [guided_deband]. *)
Inductive RemoveGrainMode := OPP_CLIP_AVG_FAST | SQUARE_BLUR | MIN_SHARP.

(** [max(l) > 0] for a list of floats. *)
Definition Qmax (x y : pyfloat) : pyfloat :=
  if QArith_base.Qle_bool x y then y else x.

Definition max_is_positive (l : list pyfloat) : bool :=
  match l with
  | [] => false
  | x :: t => Qis_pos (fold_left Qmax t x)
  end.

(** [int(x)] on a float: truncation toward zero. *)
Definition int_of_float (x : pyfloat) : Z :=
  Z.quot (QArith_base.Qnum x) (Z.pos (QArith_base.Qden x)).

(** [vstools.normalize_seq(val, length)]: [to_arr], then the last element is
    repeated up to [length] and the list is cut to [length].  Indexing the
    last element of an empty list raises [IndexError]. *)
Definition normalize_seq (val : FloatOrList) (length : Z) : Result (list pyfloat) :=
  let l := to_arr_float val in
  match last l with
  | None => Raise (Exc "IndexError" "list index out of range")
  | Some x => Ok (take (Z.to_nat length) (l ++ replicate (Z.to_nat length - List.length l)%nat x))
  end.

(** ** Objects of the package that the two modules only use *)

(** An [F3kdb] instance ([debandshit.f3kdb], not part of the two modules).
    The source reads and assigns the three threshold attributes; the
    remaining instance attributes are kept as a dictionary. *)
Record F3kdbObj := mkF3kdb {
  thy : Z;
  thcb : Z;
  thcr : Z;
  f3k_attrs : Kwargs
}.

(** A [Placebo] instance ([debandshit.placebo]); the source only constructs
    it and calls [deband] on it. *)
Record PlaceboObj := mkPlacebo {
  placebo_attrs : Kwargs
}.

Section Interface.

(** The type of [vs.VideoNode] values. *)
Context {Clip : Type}.

(** A Python object passed where the callee expects a clip.  The source
    passes module-level functions in two places, so the distinction is kept. *)
Inductive PyObj :=
| ObjClip (c : Clip)
| ObjFunction (qualname : string).

(** The [Debander] capability of [vsdeband.abstract]: [deband(clip, radius=,
    thr=, grains=)] and [grain(clip, grains=)]. *)
Record Debander := mkDebander {
  deband : PyObj -> Z -> IntOrList -> IntOrList -> Result Clip;
  grain : Clip -> IntOrList -> Result Clip
}.

(** [debander: type[Debander] | Debander]: a class (instantiated with no
    argument by the pipeline) or a ready instance. *)
Inductive DebanderT :=
| DebanderClass (construct : Result Debander)
| DebanderInst (d : Debander).

(** A [vskernels.Scaler] instance: its [scale] method ([Scaler_scale]), and attribute lookup
    for any other name called on it. *)
Record Scaler := mkScaler {
  Scaler_scale : Clip -> Z -> Z -> Result Clip;
  scaler_getattr : string -> option (Clip -> Z -> Z -> Result Clip)
}.

(** [ScalerT]: a scaler class, an instance, or a kernel name. *)
Inductive ScalerT :=
| ScalerClass (name : string)
| ScalerInst (s : Scaler)
| ScalerName (name : string).

(** [VSFunction]: a filter callable, here with the optional [planes] keyword
    made explicit. *)
Definition VSFunction := Clip -> option Z -> Kwargs -> Result Clip.

(** ** The log of external calls *)

Inductive Event :=
| EvF3kdbNew (radius : option Z) (threshold grain : option IntOrList)
    (sample_mode : option Z) (use_neo : option bool) (kwargs : Kwargs)
| EvF3kdbDeband (self : F3kdbObj) (clip : Clip)
| EvF3kdbGrain (self : F3kdbObj) (clip : Clip)
| EvPlaceboNew (radius : pyfloat) (threshold : FloatOrList) (iterations : Z)
    (grain : FloatOrList) (kwargs : Kwargs)
| EvPlaceboDeband (self : PlaceboObj) (clip : Clip)
| EvDepth (clip : Clip) (bits : Z)
| EvLimitFilter (flt src : Clip) (ref : option Clip) (kwargs : Kwargs)
| EvConvolution (clip : Clip) (matrix : list Z) (planes : option Z)
| EvMakeDiff (clipa clipb : Clip)
| EvMergeDiff (clipa clipb : Clip)
| EvResizeSpline64 (clip : Clip) (w h : Z)
| EvDebanderNew
| EvDeband (clip : PyObj) (radius : Z) (thr grains : IntOrList)
| EvGrain (clip : Clip) (grains : IntOrList)
| EvPrefilter (clip : Clip) (planes : option Z) (kwargs : Kwargs)
| EvEnsureObj (on_instance : bool) (arg : option ScalerT)
| EvScale (clip : Clip) (w h : Z)
| EvScalerMethod (name : string) (clip : Clip) (w h : Z)
| EvNormalizePlanes (clip : Clip) (planes : option IntOrList)
| EvColorRangeFromVideo (clip : Clip)
| EvScaleValue (value : pyfloat) (input_depth : Z) (output_depth : PyObj)
| EvGuidedFilter (clip : Clip) (radius : option IntOrList) (strength : pyfloat)
    (mode : GuidedFilterMode) (planes : list Z) (kwargs : Kwargs)
| EvExpand (clip : Clip) (rad : Z)
| EvInpand (clip : Clip) (rad : Z)
| EvNormExpr (clips : list Clip) (expr : string) (planes : list Z)
| EvBinarize (clip : Clip) (threshold : list pyfloat) (planes : list Z)
| EvRemoveGrain (clip : Clip) (mode : RemoveGrainMode)
| EvMaskedMerge (clipa clipb mask : Clip) (planes : list Z).

(** ** The pipeline monad: a log of the calls made so far and either a value
    or the exception that stopped the pipeline. *)

Definition M (A : Type) : Type := list Event * Result A.

Definition ret {A} (a : A) : M A := ([], Ok a).

Definition raise {A} (e : Raised) : M A := ([], Raise e).

Definition bind {A B} (m : M A) (k : A -> M B) : M B :=
  match m with
  | (l, Ok a) => let '(l', r) := k a in (l ++ l', r)
  | (l, Raise e) => (l, Raise e)
  end.

(** An external call: the event is logged, then the callee's outcome is the
    outcome of the call. *)
Definition call {A} (ev : Event) (r : Result A) : M A := ([ev], r).

(** A pure helper that may raise leaves no event. *)
Definition lift {A} (r : Result A) : M A := ([], r).

(** [try: body  except Exception: handler]: instances of [Exception] are
    caught, anything else passes through. *)
Definition try_except {A} (body : M A) (handler : M A) : M A :=
  match body with
  | (l, Raise (Exc _ _)) => let '(l', r) := handler in (l ++ l', r)
  | other => other
  end.

Definition events {A} (m : M A) : list Event := fst m.

Definition outcome {A} (m : M A) : Result A := snd m.

(** ** The host: everything the two modules call but do not define *)

Class Host := {
  (** attributes of [vs.VideoNode] *)
  format : Clip -> option VideoFormat;
  width : Clip -> Z;
  height : Clip -> Z;
  (** [debandshit.f3kdb.F3kdb]: constructor (an omitted argument is [None]),
      [deband] and [grain] methods *)
  ext_F3kdb : option Z -> option IntOrList -> option IntOrList ->
              option Z -> option bool -> Kwargs -> Result F3kdbObj;
  ext_F3kdb_deband : F3kdbObj -> Clip -> Result Clip;
  ext_F3kdb_grain : F3kdbObj -> Clip -> Result Clip;
  (** [debandshit.placebo.Placebo] *)
  ext_Placebo : pyfloat -> FloatOrList -> Z -> FloatOrList -> Kwargs -> Result PlaceboObj;
  ext_Placebo_deband : PlaceboObj -> Clip -> Result Clip;
  (** [vstools] *)
  ext_depth : Clip -> Z -> Result Clip;
  ext_normalize_planes : Clip -> option IntOrList -> Result (list Z);
  ext_ColorRange_from_video : Clip -> Result ColorRange;
  ext_scale_value : pyfloat -> Z -> PyObj -> Result pyfloat;
  (** [vsrgtools] *)
  ext_limit_filter : Clip -> Clip -> option Clip -> Kwargs -> Result Clip;
  ext_removegrain : Clip -> RemoveGrainMode -> Result Clip;
  ext_blur : Z -> VSFunction;
  (** [core.std], [core.resize] *)
  ext_Convolution : Clip -> list Z -> option Z -> Result Clip;
  ext_MakeDiff : Clip -> Clip -> Result Clip;
  ext_MergeDiff : Clip -> Clip -> Result Clip;
  ext_Binarize : Clip -> list pyfloat -> list Z -> Result Clip;
  ext_MaskedMerge : Clip -> Clip -> Clip -> list Z -> Result Clip;
  ext_Spline64 : Clip -> Z -> Z -> Result Clip;
  (** [vskernels.Scaler.ensure_obj], called on the class ([None]) or on an
      instance *)
  ext_ensure_obj : option Scaler -> option ScalerT -> Result Scaler;
  (** [vsmask.util], [vsexprtools], [vsdeband.filters] *)
  ext_expand : Clip -> Z -> Result Clip;
  ext_inpand : Clip -> Z -> Result Clip;
  ext_norm_expr : list Clip -> string -> list Z -> Result Clip;
  ext_guided_filter : Clip -> option IntOrList -> pyfloat -> GuidedFilterMode ->
                      list Z -> Kwargs -> Result Clip
}.

Context {host : Host}.

(** The calls, as the pipelines write them. *)

Definition F3kdb (radius : option Z) (threshold grain : option IntOrList)
    (sample_mode : option Z) (use_neo : option bool) (kwargs : Kwargs) : M F3kdbObj :=
  call (EvF3kdbNew radius threshold grain sample_mode use_neo kwargs)
       (ext_F3kdb radius threshold grain sample_mode use_neo kwargs).

Definition F3kdb_deband (self : F3kdbObj) (clip : Clip) : M Clip :=
  call (EvF3kdbDeband self clip) (ext_F3kdb_deband self clip).

Definition F3kdb_grain (self : F3kdbObj) (clip : Clip) : M Clip :=
  call (EvF3kdbGrain self clip) (ext_F3kdb_grain self clip).

Definition Placebo (radius : pyfloat) (threshold : FloatOrList) (iterations : Z)
    (grain : FloatOrList) (kwargs : Kwargs) : M PlaceboObj :=
  call (EvPlaceboNew radius threshold iterations grain kwargs)
       (ext_Placebo radius threshold iterations grain kwargs).

Definition Placebo_deband (self : PlaceboObj) (clip : Clip) : M Clip :=
  call (EvPlaceboDeband self clip) (ext_Placebo_deband self clip).

Definition depth (clip : Clip) (bits : Z) : M Clip :=
  call (EvDepth clip bits) (ext_depth clip bits).

Definition limit_filter (flt src : Clip) (ref : option Clip) (kwargs : Kwargs) : M Clip :=
  call (EvLimitFilter flt src ref kwargs) (ext_limit_filter flt src ref kwargs).

Definition Convolution (clip : Clip) (matrix : list Z) (planes : option Z) : M Clip :=
  call (EvConvolution clip matrix planes) (ext_Convolution clip matrix planes).

Definition MakeDiff (clipa clipb : Clip) : M Clip :=
  call (EvMakeDiff clipa clipb) (ext_MakeDiff clipa clipb).

Definition MergeDiff (clipa clipb : Clip) : M Clip :=
  call (EvMergeDiff clipa clipb) (ext_MergeDiff clipa clipb).

Definition Spline64 (clip : Clip) (w h : Z) : M Clip :=
  call (EvResizeSpline64 clip w h) (ext_Spline64 clip w h).

Definition debander_deband (d : Debander) (clip : PyObj) (radius : Z)
    (thr grains : IntOrList) : M Clip :=
  call (EvDeband clip radius thr grains) (deband d clip radius thr grains).

Definition debander_grain (d : Debander) (clip : Clip) (grains : IntOrList) : M Clip :=
  call (EvGrain clip grains) (grain d clip grains).

Definition call_prefilter (prefilter : VSFunction) (clip : Clip) (planes : option Z)
    (kwargs : Kwargs) : M Clip :=
  call (EvPrefilter clip planes kwargs) (prefilter clip planes kwargs).

(** ** Small pieces shared by the pipelines *)

Definition float_lit (n : Z) (d : positive) : pyfloat := QArith_base.Qmake n d.

(** [f3_args = dict(); if f3kdb_args is not None: f3_args |= f3kdb_args] *)
Definition merge_args (defaults : Kwargs) (given : option Kwargs) : Kwargs :=
  match given with
  | Some g => dict_ior defaults g
  | None => defaults
  end.

(** [max(1, th // 2)] *)
Definition halve_thr (th : Z) : Z := Z.max 1 (th / 2).

(** The three stage radii: [round(radius * 4 / 3)], [round(radius * 2 / 3)],
    [round(radius / 3)]. *)
Definition stage_radii (radius : Z) : Z * Z * Z :=
  (round_half_even (radius * 4) 3,
   round_half_even (radius * 2) 3,
   round_half_even radius 3).

(** [1 << n]; a negative shift count raises [ValueError]. *)
Definition py_lshift1 (n : Z) : Result Z :=
  if n <? 0 then Raise (Exc "ValueError" "negative shift count")
  else Ok (Z.shiftl 1 n).

(** [x % m]; a zero modulus raises [ZeroDivisionError]. *)
Definition py_mod (x m : Z) : Result Z :=
  if m =? 0 then Raise (Exc "ZeroDivisionError" "integer modulo by zero")
  else Ok (x mod m).

End Interface.

Notation "x <- m ;; k" := (bind m (fun x => k))
  (at level 100, m at next level, right associativity).

(** ** [debandshit.debanders] *)

Module debanders.
Section Pipelines.
Context {Clip : Type} {host : @Host Clip}.
Local Abbreviation M := (@M Clip) (only parsing).
Local Abbreviation PyObj := (@PyObj Clip) (only parsing).
Local Abbreviation Debander := (@Debander Clip) (only parsing).
Local Abbreviation DebanderT := (@DebanderT Clip) (only parsing).
Local Abbreviation Scaler := (@Scaler Clip) (only parsing).
Local Abbreviation ScalerT := (@ScalerT Clip) (only parsing).
Local Abbreviation VSFunction := (@VSFunction Clip) (only parsing).
Local Abbreviation Event := (@Event Clip) (only parsing).

(** [dumb3kdb(clip, radius=16, threshold=30, grain=0, sample_mode=2,
    use_neo=False, **kwargs)] *)
Definition dumb3kdb (clip : Clip) (radius : Z) (threshold grain : IntOrList)
    (sample_mode : Z) (use_neo : bool) (kwargs : Kwargs) : M Clip :=
  self <- F3kdb (Some radius) (Some threshold) (Some grain)
                (Some sample_mode) (Some use_neo) kwargs ;;
  F3kdb_deband self clip.

(** [f3kbilateral(clip, radius=16, threshold=65, grain=0, f3kdb_args=None,
    limflt_args=None)] *)
Definition f3kbilateral (clip : Clip) (radius : Z) (threshold grain : IntOrList)
    (f3kdb_args limflt_args : option Kwargs) : M Clip :=
  match format clip with
  | None => raise (Exc "ValueError" "f3kbilateral: 'Variable-format clips not supported'")
  | Some fmt =>
    let bits := bits_per_sample fmt in
    let f3_args := merge_args ∅ f3kdb_args in
    let lf_args :=
      merge_args (<["thr" := LFloat (float_lit 6 10)]>
                  (<["elast" := LFloat (float_lit 3 1)]>
                  (<["thrc" := LNone]> ∅))) limflt_args in
    let '(rad1, rad2, rad3) := stage_radii radius in
    db1 <- F3kdb (Some rad1) (Some threshold) (Some (IntVal 0)) None None f3_args ;;
    db2 <- F3kdb (Some rad2) (Some threshold) (Some (IntVal 0)) None None f3_args ;;
    db3 <- F3kdb (Some rad3) (Some threshold) (Some (IntVal 0)) None None f3_args ;;
    let db1 := {| thy := halve_thr (thy db1);
                  thcb := halve_thr (thcb db1);
                  thcr := halve_thr (thcr db1);
                  f3k_attrs := f3k_attrs db1 |} in
    clip <- depth clip 16 ;;
    flt1 <- F3kdb_deband db1 clip ;;
    flt2 <- F3kdb_deband db2 flt1 ;;
    flt3 <- F3kdb_deband db3 flt2 ;;
    limit <- limit_filter flt3 flt2 (Some clip) lf_args ;;
    grained <- (if truthy_int_or_list grain
                then (g <- F3kdb None None (Some grain) None None f3_args ;;
                      F3kdb_grain g limit)
                else ret limit) ;;
    depth grained bits
  end.

(** [f3kpf(clip, radius=16, threshold=30, grain=0, f3kdb_args=None,
    limflt_args=None)] *)
Definition f3kpf (clip : Clip) (radius : Z) (threshold grain : IntOrList)
    (f3kdb_args limflt_args : option Kwargs) : M Clip :=
  match format clip with
  | None => raise (Exc "ValueError" "f3kpf: 'Variable-format clips not supported'")
  | Some _ =>
    let f3_args := merge_args ∅ f3kdb_args in
    let lf_args :=
      merge_args (<["thr" := LFloat (float_lit 3 10)]>
                  (<["elast" := LFloat (float_lit 5 2)]>
                  (<["thrc" := LNone]> ∅))) limflt_args in
    blur0 <- Convolution clip [1; 2; 1; 2; 4; 2; 1; 2; 1] None ;;
    blur <- Convolution blur0 (replicate 9 1) (Some 0) ;;
    diff <- MakeDiff clip blur ;;
    self <- F3kdb (Some radius) (Some threshold) (Some grain) None None f3_args ;;
    deband <- F3kdb_deband self blur ;;
    deband <- limit_filter deband blur None lf_args ;;
    MergeDiff deband diff
  end.

(** [debandshit.debanders.lfdeband(clip, radius=30, threshold=80, grain=0,
    **f3kdb_args)] *)
Definition lfdeband (clip : Clip) (radius : Z) (threshold grain : IntOrList)
    (f3kdb_args : Kwargs) : M Clip :=
  match format clip with
  | None => raise (Exc "ValueError" "lfdeband: 'Variable-format clips not supported'")
  | Some fmt =>
    let bits := bits_per_sample fmt in
    wss <- lift (py_lshift1 (subsampling_w fmt)) ;;
    hss <- lift (py_lshift1 (subsampling_h fmt)) ;;
    let w := width clip in
    let h := height clip in
    let dw := round_half_even w 2 in
    let dh := round_half_even h 2 in
    clip <- depth clip 16 ;;
    mw <- lift (py_mod dw wss) ;;
    mh <- lift (py_mod dh hss) ;;
    dsc <- Spline64 clip (dw - mw) (dh - mh) ;;
    self <- F3kdb (Some radius) (Some threshold) (Some grain) None None f3kdb_args ;;
    d3kdb <- F3kdb_deband self dsc ;;
    ddif <- MakeDiff d3kdb dsc ;;
    dif <- Spline64 ddif w h ;;
    out <- MergeDiff clip dif ;;
    depth out bits
  end.

(** [placebo_deband(clip, radius=16.0, threshold=4.0, iterations=1,
    grain=6.0, **kwargs)] *)
Definition placebo_deband (clip : Clip) (radius : pyfloat) (threshold : FloatOrList)
    (iterations : Z) (grain : FloatOrList) (kwargs : Kwargs) : M Clip :=
  self <- Placebo radius threshold iterations grain kwargs ;;
  Placebo_deband self clip.

End Pipelines.
End debanders.

(** ** [vsdeband.funcs] *)

Module funcs.
Section Pipelines.
Context {Clip : Type} {host : @Host Clip}.
Local Abbreviation M := (@M Clip) (only parsing).
Local Abbreviation PyObj := (@PyObj Clip) (only parsing).
Local Abbreviation Debander := (@Debander Clip) (only parsing).
Local Abbreviation DebanderT := (@DebanderT Clip) (only parsing).
Local Abbreviation Scaler := (@Scaler Clip) (only parsing).
Local Abbreviation ScalerT := (@ScalerT Clip) (only parsing).
Local Abbreviation VSFunction := (@VSFunction Clip) (only parsing).
Local Abbreviation Event := (@Event Clip) (only parsing).

(** [vstools.check_variable(clip, func)]: [VariableFormatError] when
    [clip.format is None], [VariableResolutionError] when a dimension is 0,
    [True] otherwise. *)
Definition check_variable_format (clip : Clip) (func : string) : Result bool :=
  match format clip with
  | None => Raise (Exc "VariableFormatError" func)
  | Some _ => Ok true
  end.

Definition check_variable_resolution (clip : Clip) (func : string) : Result bool :=
  if (width clip =? 0) || (height clip =? 0)
  then Raise (Exc "VariableResolutionError" func)
  else Ok true.

Definition check_variable (clip : Clip) (func : string) : Result bool :=
  match check_variable_format clip func with
  | Raise e => Raise e
  | Ok _ =>
    match check_variable_resolution clip func with
    | Raise e => Raise e
    | Ok _ => Ok true
    end
  end.

(** [assert e] *)
Definition py_assert (r : Result bool) : M unit :=
  b <- lift r ;;
  if b : bool then ret tt else raise (Exc "AssertionError" "").

(** [clip.format.<attr>] once the clip has been checked. *)
Definition get_format (clip : Clip) : M VideoFormat :=
  match format clip with
  | Some fmt => ret fmt
  | None => raise (Exc "AttributeError" "'NoneType' object has no attribute")
  end.

(** [vstools.expect_bits(clip, expected_depth)]: the clip converted to
    [expected_depth] when its depth differs, and its original depth. *)
Definition expect_bits (clip : Clip) (expected_depth : Z) : M (Clip * Z) :=
  fmt <- get_format clip ;;
  let bits := bits_per_sample fmt in
  if bits =? expected_depth then ret (clip, bits)
  else (c <- depth clip expected_depth ;; ret (c, bits)).

(** [if not isinstance(debander, Debander): debander = debander()] *)
Definition ensure_debander (debander : DebanderT) : M Debander :=
  match debander with
  | DebanderInst d => ret d
  | DebanderClass construct => call EvDebanderNew construct
  end.

Definition lit_of_int_or_list (v : IntOrList) : Lit :=
  match v with
  | IntVal n => LInt n
  | IntList l => LInts l
  end.

Definition lit_of_opt_int (v : option Z) : Lit :=
  match v with
  | Some n => LInt n
  | None => LNone
  end.

(** The keywords [thr=lthr, elast=elast, bright_thr=bright_thr]. *)
Definition limit_kwargs (lthr : IntOrList) (elast : pyfloat) (bright_thr : option Z) : Kwargs :=
  <["thr" := lit_of_int_or_list lthr]>
  (<["elast" := LFloat elast]>
  (<["bright_thr" := lit_of_opt_int bright_thr]> ∅)).

(** [mdb_bilateral(clip, radius=16, thr=65, grains=0, lthr=[153, 0],
    elast=3.0, bright_thr=None, debander=F3kdb)] *)
Definition mdb_bilateral (clip : Clip) (radius : Z) (thr grains lthr : IntOrList)
    (elast : pyfloat) (bright_thr : option Z) (debander : DebanderT) : M Clip :=
  _ <- py_assert (check_variable clip "mdb_bilateral") ;;
  debander <- ensure_debander debander ;;
  cb <- expect_bits clip 16 ;;
  let clip := fst cb in
  let bits := snd cb in
  let '(rad1, rad2, rad3) := stage_radii radius in
  db1 <- debander_deband debander (ObjClip clip) rad1
           (IntList (map halve_thr (to_arr thr))) (IntVal 0) ;;
  db2 <- debander_deband debander (ObjClip db1) rad2 thr (IntVal 0) ;;
  db3 <- debander_deband debander (ObjClip db2) rad3 thr (IntVal 0) ;;
  limit <- limit_filter db3 db2 (Some clip) (limit_kwargs lthr elast bright_thr) ;;
  limit <- (if truthy_int_or_list grains
            then debander_grain debander limit grains
            else ret limit) ;;
  depth limit bits.

(** [pfdeband(clip, radius=16, thr=30, grains=0, lthr=[76, 0], elast=2.5,
    bright_thr=None, prefilter=partial(blur, radius=2), debander=F3kdb,
    **kwargs)] *)
Definition pfdeband (clip : Clip) (radius : Z) (thr grains lthr : IntOrList)
    (elast : pyfloat) (bright_thr : option Z) (prefilter : VSFunction)
    (debander : DebanderT) (kwargs : Kwargs) : M Clip :=
  _ <- py_assert (check_variable clip "pfdeband") ;;
  debander <- ensure_debander debander ;;
  blur <- try_except (call_prefilter prefilter clip (Some 0) kwargs)
                     (call_prefilter prefilter clip None kwargs) ;;
  diff <- MakeDiff clip blur ;;
  deband <- debander_deband debander (ObjClip blur) radius thr grains ;;
  limit <- limit_filter deband blur None (limit_kwargs lthr elast bright_thr) ;;
  MergeDiff limit diff.

(** The default [prefilter=partial(blur, radius=2)]. *)
Definition default_prefilter : VSFunction := ext_blur 2.

(** [vsdeband.funcs.lfdeband(clip, radius=30, thr=80, grains=0, scale=2,
    scaler=Spline64, upscaler=None, debander=F3kdb)].  Two names are
    translated as the interpreter resolves them: [blur] on line 165 is the
    module-level import [vsrgtools.blur], and [upscaler.Spline64] on line 169
    is an attribute looked up on the scaler instance. *)
Definition lfdeband (clip : Clip) (radius : Z) (thr grains : IntOrList) (scale : Z)
    (scaler : ScalerT) (upscaler : option ScalerT) (debander : DebanderT) : M Clip :=
  _ <- py_assert (check_variable clip "lfdeband") ;;
  debander <- ensure_debander debander ;;
  scaler <- call (EvEnsureObj false (Some scaler)) (ext_ensure_obj None (Some scaler)) ;;
  upscaler <- call (EvEnsureObj true upscaler) (ext_ensure_obj (Some scaler) upscaler) ;;
  fmt <- get_format clip ;;
  wss <- lift (py_lshift1 (subsampling_w fmt)) ;;
  hss <- lift (py_lshift1 (subsampling_h fmt)) ;;
  let w := width clip in
  let h := height clip in
  dw <- lift (py_round_div w scale) ;;
  dh <- lift (py_round_div h scale) ;;
  cb <- expect_bits clip 16 ;;
  let clip := fst cb in
  let bits := snd cb in
  mw <- lift (py_mod dw wss) ;;
  mh <- lift (py_mod dh hss) ;;
  dsc <- call (EvScale clip (dw - mw) (dh - mh)) (Scaler_scale scaler clip (dw - mw) (dh - mh)) ;;
  deband <- debander_deband debander (ObjFunction "vsrgtools.blur") radius thr grains ;;
  ddif <- MakeDiff deband dsc ;;
  dif <- match scaler_getattr upscaler "Spline64" with
         | Some method => call (EvScalerMethod "Spline64" ddif w h) (method ddif w h)
         | None => raise (Exc "AttributeError" "object has no attribute 'Spline64'")
         end ;;
  out <- MergeDiff clip dif ;;
  depth out bits.

(** [ColorRange.from_param(range_in) or ColorRange.from_video(clip)]: the
    parameter is used when it is truthy, that is, not [None] and not the
    member of value 0. *)
Definition resolve_range (clip : Clip) (range_in : option ColorRange) : M ColorRange :=
  match range_in with
  | Some r =>
    if ColorRange_value r =? 0
    then call (EvColorRangeFromVideo clip) (ext_ColorRange_from_video clip)
    else ret r
  | None => call (EvColorRangeFromVideo clip) (ext_ColorRange_from_video clip)
  end.

(** [guided_deband(clip, radius=None, strength=0.3, thr=None,
    mode=GuidedFilterMode.GRADIENT, rad=0, bin_thr=0, planes=None,
    range_in=None, **kwargs)].  [rad] and [bin_thr] are options because the
    source tests them against [None]. *)
Definition guided_deband (clip : Clip) (radius : option IntOrList) (strength : pyfloat)
    (thr : option FloatOrList) (mode : GuidedFilterMode) (rad : option Z)
    (bin_thr : option FloatOrList) (planes : option IntOrList)
    (range_in : option ColorRange) (kwargs : Kwargs) : M Clip :=
  _ <- py_assert (check_variable clip "guided_deband") ;;
  planes <- call (EvNormalizePlanes clip planes) (ext_normalize_planes clip planes) ;;
  range_in <- resolve_range clip range_in ;;
  let rad := fallback rad (py_ceil_div (height clip) 540) in
  fmt <- get_format clip ;;
  bin_thr <-
    match bin_thr with
    | None =>
      match sample_type fmt with
      | FLOAT =>
        ret (if is_full range_in
             then FloatVal (QArith_base.Qdiv (float_lit 3 2) (float_lit 255 1))
             else FloatList [QArith_base.Qdiv (float_lit 3 2) (float_lit 219 1);
                             QArith_base.Qdiv (float_lit 3 2) (float_lit 224 1)])
      | INTEGER =>
        x <- call (EvScaleValue (float_lit 5859375 1000000000) 32
                                (ObjFunction "vstools.scale_value"))
                  (ext_scale_value (float_lit 5859375 1000000000) 32
                                   (ObjFunction "vstools.scale_value")) ;;
        ret (FloatVal x)
      end
    | Some b => ret b
    end ;;
  bin_thr <- lift (normalize_seq bin_thr (num_planes fmt)) ;;
  deband <- call (EvGuidedFilter clip radius strength mode planes kwargs)
                 (ext_guided_filter clip radius strength mode planes kwargs) ;;
  deband <-
    match thr with
    | Some t =>
      if truthy_float_or_list t
      then limit_filter deband clip None
             (<["thr" := LInts (map int_of_float (to_arr_float t))]> ∅)
      else ret deband
    | None => ret deband
    end ;;
  if rad =? 0 then ret deband
  else
    e <- call (EvExpand clip rad) (ext_expand clip rad) ;;
    i <- call (EvInpand clip rad) (ext_inpand clip rad) ;;
    rmask <- call (EvNormExpr [e; i] "x y -" planes) (ext_norm_expr [e; i] "x y -" planes) ;;
    rmask <- (if negb (bool_decide (bin_thr = [])) && max_is_positive bin_thr
              then call (EvBinarize rmask bin_thr planes) (ext_Binarize rmask bin_thr planes)
              else ret rmask) ;;
    rmask <- call (EvRemoveGrain rmask OPP_CLIP_AVG_FAST) (ext_removegrain rmask OPP_CLIP_AVG_FAST) ;;
    rmask <- call (EvRemoveGrain rmask SQUARE_BLUR) (ext_removegrain rmask SQUARE_BLUR) ;;
    rmask <- call (EvRemoveGrain rmask MIN_SHARP) (ext_removegrain rmask MIN_SHARP) ;;
    call (EvMaskedMerge deband clip rmask planes) (ext_MaskedMerge deband clip rmask planes).

End Pipelines.
End funcs.

(** ** Reading a log *)

Section Observations.
Context {Clip : Type} {host : @Host Clip}.
Local Abbreviation Event := (@Event Clip) (only parsing).
Local Abbreviation PyObj := (@PyObj Clip) (only parsing).

(** The bit depth a clip reports, [None] for a variable format. *)
Definition bits_of (clip : Clip) : option Z := bits_per_sample <$> format clip.

Definition obj_bits (o : PyObj) : option Z :=
  match o with
  | ObjClip c => bits_of c
  | ObjFunction _ => None
  end.

(** What the debanding stages received, in call order. *)
Definition deband_inputs (log : list Event) : list PyObj :=
  omap (fun ev => match ev with
                  | EvDeband c _ _ _ => Some c
                  | EvF3kdbDeband _ c => Some (ObjClip c)
                  | _ => None
                  end) log.

(** The [radius=] keyword of each [Debander.deband] call. *)
Definition deband_radii (log : list Event) : list Z :=
  omap (fun ev => match ev with EvDeband _ r _ _ => Some r | _ => None end) log.

(** The radius each [F3kdb] constructor call received. *)
Definition f3kdb_new_radii (log : list Event) : list (option Z) :=
  omap (fun ev => match ev with EvF3kdbNew r _ _ _ _ _ => Some r | _ => None end) log.

(** The [thr=] keyword of each [Debander.deband] call. *)
Definition deband_thrs (log : list Event) : list IntOrList :=
  omap (fun ev => match ev with EvDeband _ _ t _ => Some t | _ => None end) log.

(** The thresholds [(thy, thcb, thcr)] of the instance behind each
    [F3kdb.deband] call. *)
Definition f3kdb_deband_thrs (log : list Event) : list (Z * Z * Z) :=
  omap (fun ev => match ev with
                  | EvF3kdbDeband self _ => Some (thy self, thcb self, thcr self)
                  | _ => None
                  end) log.

Definition is_depth_event (ev : Event) : bool :=
  match ev with EvDepth _ _ => true | _ => false end.

(** The [planes] argument of each prefilter call. *)
Definition prefilter_calls (log : list Event) : list (option Z) :=
  omap (fun ev => match ev with EvPrefilter _ p _ => Some p | _ => None end) log.

(** The [planes] argument of each [std.Convolution] call. *)
Definition convolution_calls (log : list Event) : list (option Z) :=
  omap (fun ev => match ev with EvConvolution _ _ p => Some p | _ => None end) log.

(** The target size of each [resize.Spline64] call. *)
Definition resize_sizes (log : list Event) : list (Z * Z) :=
  omap (fun ev => match ev with EvResizeSpline64 _ w h => Some (w, h) | _ => None end) log.

(** The radius each [guided_filter] call received. *)
Definition guided_filter_radii (log : list Event) : list (option IntOrList) :=
  omap (fun ev => match ev with EvGuidedFilter _ r _ _ _ _ => Some r | _ => None end) log.

(** The radius of each [expand] / [inpand] call. *)
Definition mask_radii (log : list Event) : list Z :=
  omap (fun ev => match ev with
                  | EvExpand _ r => Some r
                  | EvInpand _ r => Some r
                  | _ => None
                  end) log.

(** The arguments of each [scale_value] call. *)
Definition scale_value_calls (log : list Event) : list (pyfloat * Z * PyObj) :=
  omap (fun ev => match ev with EvScaleValue v d o => Some (v, d, o) | _ => None end) log.

Definition is_binarize_event (ev : Event) : bool :=
  match ev with EvBinarize _ _ _ => true | _ => false end.

(** Whether the first debanding stage of a run received a clip of [b] bits. *)
Definition enters_debanding_at (b : Z) (log : list Event) : bool :=
  match head (deband_inputs log) with
  | Some o => bool_decide (obj_bits o = Some b)
  | None => false
  end.

(** Whether a run converted the bit depth at all. *)
Definition converts_depth (log : list Event) : bool := existsb is_depth_event log.

(** A run that stopped on [e] before calling anything. *)
Definition rejected (e : Raised) : @M Clip Clip := ([], Raise e).

(** The format errors: the [ValueError] of [debandshit.debanders], with its
    message, and the [VariableFormatError] of [vstools.check_variable], with
    the function it was raised for. *)
Definition unsupported (message : string) : Raised := Exc "ValueError" message.

Definition variable_format (func : string) : Raised := Exc "VariableFormatError" func.

(** What the documentation of the host promises about sizes and depths. *)
Class HostLaws : Prop := {
  depth_bits : forall c b c', ext_depth c b = Ok c' -> bits_of c' = Some b;
  depth_size : forall c b c',
    ext_depth c b = Ok c' -> width c' = width c /\ height c' = height c;
  MergeDiff_size : forall a b c',
    ext_MergeDiff a b = Ok c' -> width c' = width a /\ height c' = height a;
  Spline64_format : forall c w h c', ext_Spline64 c w h = Ok c' -> format c' = format c
}.

End Observations.

(** ** A reference host

    A small executable host used to run the pipelines on concrete clips: a
    clip is its three attributes, [depth] and the resizers set the attribute
    they convert, every other filter returns a clip with the attributes of
    its first input. *)

Module Ref.

Record RClip := mkClip {
  r_format : option VideoFormat;
  r_width : Z;
  r_height : Z
}.

Definition set_bits (b : Z) (c : RClip) : RClip :=
  {| r_format := (fun f => {| bits_per_sample := b;
                              sample_type := sample_type f;
                              subsampling_w := subsampling_w f;
                              subsampling_h := subsampling_h f;
                              num_planes := num_planes f |}) <$> r_format c;
     r_width := r_width c;
     r_height := r_height c |}.

Definition resize (c : RClip) (w h : Z) : RClip :=
  {| r_format := r_format c; r_width := w; r_height := h |}.

Definition nth_pad (i : nat) (l : list Z) (d : Z) : Z := nth i l (List.last l d).

Definition new_F3kdb (radius : option Z) (threshold grain : option IntOrList)
    (sample_mode : option Z) (use_neo : option bool) (kwargs : gmap string Lit)
    : Result F3kdbObj :=
  let th := to_arr (fallback threshold (IntVal 30)) in
  Ok {| thy := nth_pad 0 th 30; thcb := nth_pad 1 th 30; thcr := nth_pad 2 th 30;
        f3k_attrs := <["radius" := LInt (fallback radius 16)]> kwargs |}.

(** [deband] of the package's debander classes: the clip comes back with
    its attributes, a variable-format clip is refused. *)
Definition class_deband (c : RClip) : Result RClip :=
  match r_format c with
  | Some _ => Ok c
  | None => Raise (Exc "ValueError" "deband: 'Variable-format clips not supported'")
  end.

(** A debander that accepts clips only. *)
Definition debander : @Debander RClip :=
  {| deband := fun o _ _ _ =>
       match o with
       | ObjClip c => Ok c
       | ObjFunction _ =>
         Raise (Exc "AttributeError" "'function' object has no attribute 'format'")
       end;
     grain := fun c _ => Ok c |}.

(** A scaler with the [scale] method only. *)
Definition scaler : @Scaler RClip :=
  {| Scaler_scale := fun c w h => Ok (resize c w h);
     scaler_getattr := fun _ => None |}.

(** Duck-typed stand-ins: a debander that returns a 16-bit clip whatever it
    is given, and an object with both a [scale] and a [Spline64] method. *)
Definition lenient_debander : @Debander RClip :=
  {| deband := fun _ _ _ _ =>
       Ok {| r_format := Some {| bits_per_sample := 16; sample_type := INTEGER;
                                 subsampling_w := 1; subsampling_h := 1;
                                 num_planes := 3 |};
             r_width := 960; r_height := 540 |};
     grain := fun c _ => Ok c |}.

Definition duck_scaler : @Scaler RClip :=
  {| Scaler_scale := fun c w h => Ok (resize c w h);
     scaler_getattr := fun name =>
       if String.eqb name "Spline64" then Some (fun c w h => Ok (resize c w h)) else None |}.

Definition seqZ_planes (c : RClip) : list Z :=
  match r_format c with
  | Some f => (fun i => Z.of_nat i) <$> seq 0 (Z.to_nat (num_planes f))
  | None => []
  end.

(** The reference host, for a given behaviour of [std.Convolution]. *)
Definition host_with (convolution : RClip -> list Z -> option Z -> Result RClip)
    : @Host RClip :=
  {| format := r_format;
     width := r_width;
     height := r_height;
     ext_F3kdb := new_F3kdb;
     ext_F3kdb_deband := fun _ c => class_deband c;
     ext_F3kdb_grain := fun _ c => Ok c;
     ext_Placebo := fun _ _ _ _ kw => Ok {| placebo_attrs := kw |};
     ext_Placebo_deband := fun _ c => class_deband c;
     ext_depth := fun c b =>
       match r_format c with
       | Some _ => Ok (set_bits b c)
       | None => Raise (Exc "VariableFormatError" "depth")
       end;
     ext_normalize_planes := fun c p =>
       Ok (match p with Some v => to_arr v | None => seqZ_planes c end);
     ext_ColorRange_from_video := fun _ => Ok LIMITED;
     ext_scale_value := fun v _ o =>
       match o with
       | ObjClip _ => Ok v
       | ObjFunction _ =>
         Raise (Exc "AttributeError" "'function' object has no attribute 'format'")
       end;
     ext_limit_filter := fun flt _ _ _ => Ok flt;
     ext_removegrain := fun c _ => Ok c;
     ext_blur := fun _ c _ _ => Ok c;
     ext_Convolution := convolution;
     ext_MakeDiff := fun a _ => Ok a;
     ext_MergeDiff := fun a _ => Ok a;
     ext_Binarize := fun c _ _ => Ok c;
     ext_MaskedMerge := fun a _ _ _ => Ok a;
     ext_Spline64 := fun c w h => Ok (resize c w h);
     ext_ensure_obj := fun receiver arg =>
       Ok (match arg, receiver with
           | Some (ScalerInst s), _ => s
           | None, Some s => s
           | _, _ => scaler
           end);
     ext_expand := fun c _ => Ok c;
     ext_inpand := fun c _ => Ok c;
     ext_norm_expr := fun cs _ _ =>
       match cs with
       | c :: _ => Ok c
       | [] => Raise (Exc "ValueError" "no clip")
       end;
     ext_guided_filter := fun c _ _ _ _ _ => Ok c |}.

Definition host : @Host RClip := host_with (fun c _ _ => Ok c).

(** A host whose convolution rejects the [planes] keyword. *)
Definition host_no_planes : @Host RClip :=
  host_with (fun c _ p =>
    match p with
    | None => Ok c
    | Some _ => Raise (Exc "TypeError" "unexpected keyword argument 'planes'")
    end).

(** A prefilter without a [planes] parameter. *)
Definition prefilter_no_planes : @VSFunction RClip :=
  fun c p _ =>
    match p with
    | None => Ok c
    | Some _ => Raise (Exc "TypeError" "unexpected keyword argument 'planes'")
    end.

(** A prefilter that always fails. *)
Definition prefilter_broken : @VSFunction RClip :=
  fun _ p _ =>
    match p with
    | Some _ => Raise (Exc "RuntimeError" "first attempt")
    | None => Raise (Exc "RuntimeError" "second attempt")
    end.

Definition yuv420 (bits : Z) (st : SampleType) : VideoFormat :=
  {| bits_per_sample := bits; sample_type := st;
     subsampling_w := 1; subsampling_h := 1; num_planes := 3 |}.

(** 1920x1080 YUV 4:2:0 clips of 8 and 16 bits, a 32-bit float one, and a
    variable-format clip. *)
Definition clip8 : RClip := mkClip (Some (yuv420 8 INTEGER)) 1920 1080.
Definition clip16 : RClip := mkClip (Some (yuv420 16 INTEGER)) 1920 1080.
Definition clip32f : RClip := mkClip (Some (yuv420 32 FLOAT)) 1920 1080.
Definition clip_variable : RClip := mkClip None 1920 1080.

End Ref.

(** ** Further readings of a log *)

Section Readings.
Context {Clip : Type}.
Local Abbreviation Event := (@Event Clip) (only parsing).

(** The arguments of each [limit_filter] call. *)
Definition limit_filter_calls (log : list Event) : list (Clip * Clip * option Clip * Kwargs) :=
  omap (fun ev => match ev with
                  | EvLimitFilter flt src ref kw => Some (flt, src, ref, kw)
                  | _ => None
                  end) log.

(** The clip each [grain] call received ([Debander.grain] or [F3kdb.grain]). *)
Definition grain_inputs (log : list Event) : list Clip :=
  omap (fun ev => match ev with
                  | EvGrain c _ => Some c
                  | EvF3kdbGrain _ c => Some c
                  | _ => None
                  end) log.

(** The [grains=] keyword of each [Debander.grain] call. *)
Definition grain_amounts (log : list Event) : list IntOrList :=
  omap (fun ev => match ev with EvGrain _ g => Some g | _ => None end) log.

(** The [grains=] keyword of each [Debander.deband] call. *)
Definition deband_grains (log : list Event) : list IntOrList :=
  omap (fun ev => match ev with EvDeband _ _ _ g => Some g | _ => None end) log.

(** The [grain] argument and the keyword dictionary of each [F3kdb]
    constructor call. *)
Definition f3kdb_new_grains (log : list Event) : list (option IntOrList) :=
  omap (fun ev => match ev with EvF3kdbNew _ _ g _ _ _ => Some g | _ => None end) log.

Definition f3kdb_new_kwargs (log : list Event) : list Kwargs :=
  omap (fun ev => match ev with EvF3kdbNew _ _ _ _ _ kw => Some kw | _ => None end) log.

(** The mode of each [removegrain] call. *)
Definition removegrain_modes (log : list Event) : list RemoveGrainMode :=
  omap (fun ev => match ev with EvRemoveGrain _ m => Some m | _ => None end) log.

(** The arguments of each [std.MaskedMerge] call. *)
Definition masked_merge_calls (log : list Event) : list (Clip * Clip * Clip * list Z) :=
  omap (fun ev => match ev with
                  | EvMaskedMerge a b m p => Some (a, b, m, p)
                  | _ => None
                  end) log.

(** The thresholds of each [std.Binarize] call. *)
Definition binarize_thresholds (log : list Event) : list (list pyfloat) :=
  omap (fun ev => match ev with EvBinarize _ t _ => Some t | _ => None end) log.

(** The target size of each [scaler.scale] call, and the name and target
    size of each other method called on a scaler. *)
Definition scale_sizes (log : list Event) : list (Z * Z) :=
  omap (fun ev => match ev with EvScale _ w h => Some (w, h) | _ => None end) log.


(** The clip and depth of each [depth] call. *)
Definition depth_calls (log : list Event) : list (Clip * Z) :=
  omap (fun ev => match ev with EvDepth c b => Some (c, b) | _ => None end) log.

Definition is_debander_new (ev : Event) : bool :=
  match ev with EvDebanderNew => true | _ => false end.

(** [if thr:] for an optional threshold. *)
Definition opt_truthy (thr : option FloatOrList) : bool :=
  match thr with
  | Some t => truthy_float_or_list t
  | None => false
  end.

End Readings.

(** ** A one-sample host

    Clips are single integer samples: [MakeDiff] subtracts, [MergeDiff]
    adds, the blurs halve, and limiting keeps the filtered sample.  It is
    used to run the difference/merge pipelines on values. *)

Module Pixel.

Definition fmt16 : VideoFormat :=
  {| bits_per_sample := 16; sample_type := INTEGER;
     subsampling_w := 0; subsampling_h := 0; num_planes := 1 |}.

(** A debander that leaves the sample alone, and one that rounds it down to
    a multiple of 8. *)
Definition idle : @Debander Z :=
  {| deband := fun o _ _ _ =>
       match o with
       | ObjClip c => Ok c
       | ObjFunction _ => Raise (Exc "AttributeError" "'function' object has no attribute 'format'")
       end;
     grain := fun c _ => Ok c |}.

Definition flatten : @Debander Z :=
  {| deband := fun o _ _ _ =>
       match o with
       | ObjClip c => Ok (c - c mod 8)
       | ObjFunction _ => Raise (Exc "AttributeError" "'function' object has no attribute 'format'")
       end;
     grain := fun c _ => Ok c |}.

Definition scaler : @Scaler Z :=
  {| Scaler_scale := fun c _ _ => Ok c; scaler_getattr := fun _ => None |}.

Definition host : @Host Z :=
  {| format := fun _ => Some fmt16;
     width := fun _ => 1;
     height := fun _ => 1;
     ext_F3kdb := Ref.new_F3kdb;
     ext_F3kdb_deband := fun _ c => Ok c;
     ext_F3kdb_grain := fun _ c => Ok c;
     ext_Placebo := fun _ _ _ _ kw => Ok {| placebo_attrs := kw |};
     ext_Placebo_deband := fun _ c => Ok c;
     ext_depth := fun c _ => Ok c;
     ext_normalize_planes := fun _ _ => Ok [0];
     ext_ColorRange_from_video := fun _ => Ok LIMITED;
     ext_scale_value := fun v _ _ => Ok v;
     ext_limit_filter := fun flt _ _ _ => Ok flt;
     ext_removegrain := fun c _ => Ok c;
     ext_blur := fun _ c _ _ => Ok (c / 2);
     ext_Convolution := fun c _ _ => Ok (c / 2);
     ext_MakeDiff := fun a b => Ok (a - b);
     ext_MergeDiff := fun a b => Ok (a + b);
     ext_Binarize := fun c _ _ => Ok c;
     ext_MaskedMerge := fun a _ _ _ => Ok a;
     ext_Spline64 := fun c _ _ => Ok c;
     ext_ensure_obj := fun _ _ => Ok scaler;
     ext_expand := fun c _ => Ok c;
     ext_inpand := fun c _ => Ok c;
     ext_norm_expr := fun cs _ _ =>
       match cs with
       | a :: b :: _ => Ok (a - b)
       | _ => Raise (Exc "ValueError" "two clips expected")
       end;
     ext_guided_filter := fun c _ _ _ _ _ => Ok c |}.

End Pixel.

(** A prefilter interrupted from the keyboard during its first call. *)
Definition interrupted_prefilter : @VSFunction Ref.RClip :=
  fun c p _ =>
    match p with
    | Some _ => Raise (BaseExc "KeyboardInterrupt")
    | None => Ok c
    end.

(** A debander class whose constructor raises. *)
Definition failing_debander_class : @DebanderT Ref.RClip :=
  DebanderClass (Raise (Exc "TypeError" "missing required argument")).

(** * Properties *)

(** ** Rounding *)

Section Rounding.



Lemma round_half_even_exact (q b : Z) : 0 < b -> round_half_even (q * b) b = q.
Proof.
  intros Hb. unfold round_half_even.
  rewrite Z.div_mul, Z.mod_mul by lia.
  destruct (Z.ltb_spec (2 * 0) b); [ reflexivity | lia ].
Qed.

End Rounding.

Lemma py_ceil_div_spec (a b : Z) :
  0 < b -> a <= py_ceil_div a b * b < a + b.
Proof.
  intros Hb. unfold py_ceil_div.
  pose proof (Z.div_mod (- a) b ltac:(lia)).
  pose proof (Z.mod_pos_bound (- a) b Hb).
  nia.
Qed.

Lemma py_ceil_div_pos (a b : Z) : 0 < a -> 0 < b -> 0 < py_ceil_div a b.
Proof.
  intros Ha Hb. pose proof (py_ceil_div_spec a b Hb). nia.
Qed.

(** The downscaled size [dw - dw % wss] of [lfdeband] is a multiple of the
    subsampling factor and at most one factor below [dw]. *)
Lemma downscaled_size_congruent (dw wss : Z) :
  0 < wss -> (dw - dw mod wss) mod wss = 0 /\ dw - wss < dw - dw mod wss <= dw.
Proof.
  intros Hw. pose proof (Z.mod_pos_bound dw wss Hw). split; [ | lia ].
  rewrite Zminus_mod_idemp_r, Z.sub_diag. apply Z.mod_0_l. lia.
Qed.

Lemma py_lshift1_pos (n w : Z) : py_lshift1 n = Ok w -> 0 < w.
Proof.
  unfold py_lshift1. destruct (Z.ltb_spec n 0); [ discriminate | ].
  intros [= <-]. rewrite Z.shiftl_1_l. apply Z.pow_pos_nonneg; lia.
Qed.

(** ** The monad *)

Section MonadFacts.
Context {Clip : Type}.

Lemma bind_ret_l {A B} (a : A) (k : A -> @M Clip B) : bind (ret a) k = k a.
Proof. unfold bind, ret. now destruct (k a). Qed.

Lemma bind_ret_r {A} (m : @M Clip A) : bind m ret = m.
Proof.
  destruct m as [l [a | e]]; cbn; [ now rewrite app_nil_r | reflexivity ].
Qed.

Lemma bind_assoc {A B C} (m : @M Clip A) (f : A -> @M Clip B) (g : B -> @M Clip C) :
  bind (bind m f) g = bind m (fun a => bind (f a) g).
Proof.
  destruct m as [l [a | e]]; cbn; [ | reflexivity ].
  destruct (f a) as [l1 [b | e]]; cbn; [ | reflexivity ].
  destruct (g b) as [l2 r]. now rewrite app_assoc.
Qed.

(** A run that stops keeps the calls made before it stopped. *)
Lemma bind_raise {A B} (m : @M Clip A) (k : A -> @M Clip B) (e : Raised) :
  outcome m = Raise e -> bind m k = (events m, Raise e).
Proof. destruct m as [l r]; cbn. now intros ->. Qed.

(** The calls of the first step are a prefix of the calls of the run. *)
Lemma events_bind_prefix {A B} (m : @M Clip A) (k : A -> @M Clip B) :
  events m `prefix_of` events (bind m k).
Proof.
  destruct m as [l [a | e]]; cbn.
  - destruct (k a) as [l' r]. cbn. now apply prefix_app_r.
  - reflexivity.
Qed.

(** [except Exception] lets a successful body through untouched. *)
Lemma try_except_ok {A} (body handler : @M Clip A) (a : A) :
  outcome body = Ok a -> try_except body handler = body.
Proof. destruct body as [l r]; cbn. now intros ->. Qed.

End MonadFacts.

(** ** Stepping through a pipeline *)

Ltac unfold_calls :=
  unfold F3kdb, F3kdb_deband, F3kdb_grain, Placebo, Placebo_deband, depth, limit_filter,
    Convolution, MakeDiff, MergeDiff, Spline64, debander_deband, debander_grain,
    call_prefilter, funcs.ensure_debander, funcs.expect_bits, funcs.get_format,
    funcs.py_assert, funcs.resolve_range, py_lshift1, py_mod, py_round_div,
    try_except, bind, call, lift, ret, raise in *.

(** One case split per external call or test met along the run recorded in
    [E : pipeline = (log, res)]. *)
Ltac run_in E :=
  repeat (cbn in E;
    match type of E with
    | context [if ?b then _ else _] => destruct b eqn:?
    | context [match ?o with Some _ => _ | None => _ end] => destruct o eqn:?
    | context [match ?r with Ok _ => _ | Raise _ => _ end] => destruct r eqn:?
    | context [match ?d with DebanderClass _ => _ | DebanderInst _ => _ end] => destruct d
    | context [match ?e with Exc _ _ => _ | BaseExc _ => _ end] => destruct e
    | context [match ?s with INTEGER => _ | FLOAT => _ end] => destruct s eqn:?
    | context [let '(_, _) := ?p in _] => destruct p eqn:?
    end).

(** Names the log and the outcome of the pipeline in the goal and steps
    through it. *)
Ltac run_pipeline p :=
  let log := fresh "log" in
  let res := fresh "res" in
  let E := fresh "E" in
  destruct p as [log res] eqn:E;
  cbn [outcome events fst snd] in *;
  unfold debanders.dumb3kdb, debanders.f3kbilateral, debanders.f3kpf, debanders.lfdeband,
    debanders.placebo_deband, funcs.mdb_bilateral, funcs.pfdeband, funcs.lfdeband,
    funcs.guided_deband in E;
  unfold_calls;
  run_in E;
  try discriminate;
  try (inversion E; subst; clear E).

Section Stages.
Context {Clip : Type} {host : @Host Clip}.
Local Abbreviation Debander := (@Debander Clip) (only parsing).
Local Abbreviation DebanderT := (@DebanderT Clip) (only parsing).
Local Abbreviation ScalerT := (@ScalerT Clip) (only parsing).
Local Abbreviation VSFunction := (@VSFunction Clip) (only parsing).


(** The stages of [mdb_bilateral] receive exactly these radii, in order. *)
Lemma mdb_bilateral_radii clip radius thr grains lthr elast bright_thr (debander : DebanderT) out :
  outcome (funcs.mdb_bilateral clip radius thr grains lthr elast bright_thr debander) = Ok out ->
  deband_radii (events (funcs.mdb_bilateral clip radius thr grains lthr elast bright_thr debander))
  = let '(rad1, rad2, rad3) := stage_radii radius in [rad1; rad2; rad3].
Proof.
  run_pipeline (funcs.mdb_bilateral clip radius thr grains lthr elast bright_thr debander);
    intros; subst; try discriminate; reflexivity.
Qed.

(** The three instances of [f3kbilateral] are constructed with these radii,
    in order (a fourth, for the grain, is constructed without a radius). *)
Lemma f3kbilateral_radii clip radius threshold grain f3kdb_args limflt_args out :
  outcome (debanders.f3kbilateral clip radius threshold grain f3kdb_args limflt_args) = Ok out ->
  take 3 (f3kdb_new_radii
            (events (debanders.f3kbilateral clip radius threshold grain f3kdb_args limflt_args)))
  = let '(rad1, rad2, rad3) := stage_radii radius in [Some rad1; Some rad2; Some rad3].
Proof.
  run_pipeline (debanders.f3kbilateral clip radius threshold grain f3kdb_args limflt_args);
    intros; subst; try discriminate; reflexivity.
Qed.

(** C9.  [dumb3kdb] and [placebo_deband] construct their debander from the
    parameters as given and return the outcome of its [deband] on the clip;
    the constructor and that one method are the only calls made. *)
Theorem passthrough_to_single_debander
    (clip : Clip) (radius : Z) (threshold grain : IntOrList) (sample_mode : Z)
    (use_neo : bool) (kwargs : Kwargs)
    (pradius : pyfloat) (pthreshold : FloatOrList) (iterations : Z) (pgrain : FloatOrList) :
  debanders.dumb3kdb clip radius threshold grain sample_mode use_neo kwargs
  = match ext_F3kdb (Some radius) (Some threshold) (Some grain)
                    (Some sample_mode) (Some use_neo) kwargs with
    | Ok self =>
      ([EvF3kdbNew (Some radius) (Some threshold) (Some grain)
                   (Some sample_mode) (Some use_neo) kwargs;
        EvF3kdbDeband self clip],
       ext_F3kdb_deband self clip)
    | Raise e =>
      ([EvF3kdbNew (Some radius) (Some threshold) (Some grain)
                   (Some sample_mode) (Some use_neo) kwargs], Raise e)
    end
  /\
  debanders.placebo_deband clip pradius pthreshold iterations pgrain kwargs
  = match ext_Placebo pradius pthreshold iterations pgrain kwargs with
    | Ok self =>
      ([EvPlaceboNew pradius pthreshold iterations pgrain kwargs;
        EvPlaceboDeband self clip],
       ext_Placebo_deband self clip)
    | Raise e =>
      ([EvPlaceboNew pradius pthreshold iterations pgrain kwargs], Raise e)
    end.
Proof.
  unfold debanders.dumb3kdb, debanders.placebo_deband.
  unfold_calls.
  split.
  - destruct (ext_F3kdb _ _ _ _ _ _); reflexivity.
  - destruct (ext_Placebo _ _ _ _ _); reflexivity.
Qed.

(** C8.  In [mdb_bilateral] the first pass is called with every threshold
    of the caller replaced by [max(1, th // 2)] and the second and third
    passes with the caller's [thr] itself; in [f3kbilateral] the three
    instances are built from the caller's [threshold] and only the first one
    has its [thy], [thcb], [thcr] replaced by [max(1, th // 2)]. *)
Theorem first_pass_thresholds_halved :
  (forall clip radius thr grains lthr elast bright_thr (debander : DebanderT) out,
    outcome (funcs.mdb_bilateral clip radius thr grains lthr elast bright_thr debander) = Ok out ->
    deband_thrs (events (funcs.mdb_bilateral clip radius thr grains lthr elast bright_thr debander))
    = [IntList (map (fun th => Z.max 1 (th / 2)) (to_arr thr)); thr; thr])
  /\
  (forall clip radius threshold grain f3kdb_args limflt_args out,
    outcome (debanders.f3kbilateral clip radius threshold grain f3kdb_args limflt_args) = Ok out ->
    exists db1 db2 db3,
      let '(rad1, rad2, rad3) := stage_radii radius in
      ext_F3kdb (Some rad1) (Some threshold) (Some (IntVal 0)) None None
                (merge_args ∅ f3kdb_args) = Ok db1 /\
      ext_F3kdb (Some rad2) (Some threshold) (Some (IntVal 0)) None None
                (merge_args ∅ f3kdb_args) = Ok db2 /\
      ext_F3kdb (Some rad3) (Some threshold) (Some (IntVal 0)) None None
                (merge_args ∅ f3kdb_args) = Ok db3 /\
      f3kdb_deband_thrs
        (events (debanders.f3kbilateral clip radius threshold grain f3kdb_args limflt_args))
      = [(Z.max 1 (thy db1 / 2), Z.max 1 (thcb db1 / 2), Z.max 1 (thcr db1 / 2));
         (thy db2, thcb db2, thcr db2);
         (thy db3, thcb db3, thcr db3)]).
Proof.
  split.
  - intros clip radius thr grains lthr elast bright_thr debander out.
    run_pipeline (funcs.mdb_bilateral clip radius thr grains lthr elast bright_thr debander);
      intros; subst; try discriminate; reflexivity.
  - intros clip radius threshold grain f3kdb_args limflt_args out.
    run_pipeline (debanders.f3kbilateral clip radius threshold grain f3kdb_args limflt_args);
      intros; subst; try discriminate.
    all: eexists _, _, _; cbn; repeat split; eauto.
Qed.

End Stages.

Section FormatCheck.
Context {Clip : Type} {host : @Host Clip}.
Local Abbreviation Debander := (@Debander Clip) (only parsing).
Local Abbreviation DebanderT := (@DebanderT Clip) (only parsing).
Local Abbreviation ScalerT := (@ScalerT Clip) (only parsing).
Local Abbreviation VSFunction := (@VSFunction Clip) (only parsing).

Ltac not_rejected p :=
  unfold rejected, unsupported, variable_format;
  let log := fresh "log" in
  let res := fresh "res" in
  let E := fresh "E" in
  destruct p as [log res] eqn:E;
  unfold debanders.f3kbilateral, debanders.f3kpf, debanders.lfdeband,
    funcs.mdb_bilateral, funcs.pfdeband, funcs.lfdeband, funcs.guided_deband,
    funcs.check_variable, funcs.check_variable_format, funcs.check_variable_resolution in E;
  unfold_calls;
  run_in E;
  try discriminate;
  inversion E; subst; clear E; intros Heq; congruence.

(** C3, as the code has it.  On a variable-format clip each of
    [f3kbilateral], [f3kpf], both [lfdeband], [mdb_bilateral], [pfdeband] and
    [guided_deband] ends in its format error with an empty log: nothing was
    called.  On a concrete-format clip the format check passes and no run
    ends that way.  [dumb3kdb] and [placebo_deband] check nothing themselves:
    whatever the clip, their first step is the constructor call. *)
Theorem variable_format_rejected_first
    (clip : Clip) (radius scale : Z) (threshold grain lthr : IntOrList)
    (f3kdb_args limflt_args : option Kwargs) (kwargs : Kwargs)
    (elast strength : pyfloat) (bright_thr rad : option Z)
    (debander : DebanderT) (prefilter : VSFunction)
    (scaler : ScalerT) (upscaler : option ScalerT)
    (gradius planes : option IntOrList) (gthr bin_thr : option FloatOrList)
    (mode : GuidedFilterMode) (range_in : option ColorRange)
    (sample_mode iterations : Z) (use_neo : bool)
    (pradius : pyfloat) (pthreshold pgrain : FloatOrList) :
  (head (events (debanders.dumb3kdb clip radius threshold grain sample_mode use_neo kwargs))
   = Some (EvF3kdbNew (Some radius) (Some threshold) (Some grain)
                      (Some sample_mode) (Some use_neo) kwargs) /\
   head (events (debanders.placebo_deband clip pradius pthreshold iterations pgrain kwargs))
   = Some (EvPlaceboNew pradius pthreshold iterations pgrain kwargs)) /\
  match format clip with
  | None =>
    debanders.f3kbilateral clip radius threshold grain f3kdb_args limflt_args
      = rejected (unsupported "f3kbilateral: 'Variable-format clips not supported'") /\
    debanders.f3kpf clip radius threshold grain f3kdb_args limflt_args
      = rejected (unsupported "f3kpf: 'Variable-format clips not supported'") /\
    debanders.lfdeband clip radius threshold grain kwargs
      = rejected (unsupported "lfdeband: 'Variable-format clips not supported'") /\
    funcs.mdb_bilateral clip radius threshold grain lthr elast bright_thr debander
      = rejected (variable_format "mdb_bilateral") /\
    funcs.pfdeband clip radius threshold grain lthr elast bright_thr prefilter debander kwargs
      = rejected (variable_format "pfdeband") /\
    funcs.lfdeband clip radius threshold grain scale scaler upscaler debander
      = rejected (variable_format "lfdeband") /\
    funcs.guided_deband clip gradius strength gthr mode rad bin_thr planes range_in kwargs
      = rejected (variable_format "guided_deband")
  | Some _ =>
    (forall name, funcs.check_variable_format clip name = Ok true) /\
    debanders.f3kbilateral clip radius threshold grain f3kdb_args limflt_args
      <> rejected (unsupported "f3kbilateral: 'Variable-format clips not supported'") /\
    debanders.f3kpf clip radius threshold grain f3kdb_args limflt_args
      <> rejected (unsupported "f3kpf: 'Variable-format clips not supported'") /\
    debanders.lfdeband clip radius threshold grain kwargs
      <> rejected (unsupported "lfdeband: 'Variable-format clips not supported'") /\
    funcs.mdb_bilateral clip radius threshold grain lthr elast bright_thr debander
      <> rejected (variable_format "mdb_bilateral") /\
    funcs.pfdeband clip radius threshold grain lthr elast bright_thr prefilter debander kwargs
      <> rejected (variable_format "pfdeband") /\
    funcs.lfdeband clip radius threshold grain scale scaler upscaler debander
      <> rejected (variable_format "lfdeband") /\
    funcs.guided_deband clip gradius strength gthr mode rad bin_thr planes range_in kwargs
      <> rejected (variable_format "guided_deband")
  end.
Proof.
  split.
  { unfold debanders.dumb3kdb, debanders.placebo_deband. unfold_calls.
    split; [ destruct (ext_F3kdb _ _ _ _ _ _) | destruct (ext_Placebo _ _ _ _ _) ];
      reflexivity. }
  destruct (format clip) as [fmt|] eqn:Hfmt.
  - split; [ intros name; unfold funcs.check_variable_format; now rewrite Hfmt | ].
    repeat split.
    + not_rejected (debanders.f3kbilateral clip radius threshold grain f3kdb_args limflt_args).
    + not_rejected (debanders.f3kpf clip radius threshold grain f3kdb_args limflt_args).
    + not_rejected (debanders.lfdeband clip radius threshold grain kwargs).
    + not_rejected (funcs.mdb_bilateral clip radius threshold grain lthr elast bright_thr debander).
    + not_rejected (funcs.pfdeband clip radius threshold grain lthr elast bright_thr
                      prefilter debander kwargs).
    + not_rejected (funcs.lfdeband clip radius threshold grain scale scaler upscaler debander).
    + not_rejected (funcs.guided_deband clip gradius strength gthr mode rad bin_thr planes
                      range_in kwargs).
  - unfold debanders.f3kbilateral, debanders.f3kpf, debanders.lfdeband,
      funcs.mdb_bilateral, funcs.pfdeband, funcs.lfdeband, funcs.guided_deband,
      funcs.py_assert, funcs.check_variable, funcs.check_variable_format.
    rewrite Hfmt. repeat split.
Qed.
End FormatCheck.

Section WorkingDepth.
Context {Clip : Type} {host : @Host Clip}.
Local Abbreviation Debander := (@Debander Clip) (only parsing).
Local Abbreviation DebanderT := (@DebanderT Clip) (only parsing).
Local Abbreviation ScalerT := (@ScalerT Clip) (only parsing).
Local Abbreviation VSFunction := (@VSFunction Clip) (only parsing).

Lemma bits_of_format clip fmt :
  format clip = Some fmt -> bits_of clip = Some (bits_per_sample fmt).
Proof. intros H. unfold bits_of. now rewrite H. Qed.

Lemma Spline64_bits `{!HostLaws} c w h c' :
  ext_Spline64 c w h = Ok c' -> bits_of c' = bits_of c.
Proof. intros Hs. unfold bits_of. now rewrite (Spline64_format _ _ _ _ Hs). Qed.

(** C1, as the code has it.  [f3kbilateral], [mdb_bilateral] and
    [debandshit.debanders.lfdeband] hand a 16-bit clip to their first
    debanding stage and return a clip that reports the bit depth of the
    input; [f3kpf] and [pfdeband] never convert the bit depth. *)
Theorem working_depth_round_trip :
  HostLaws ->
  (forall clip radius threshold grain f3kdb_args limflt_args out,
    let run := debanders.f3kbilateral clip radius threshold grain f3kdb_args limflt_args in
    outcome run = Ok out ->
    enters_debanding_at 16 (events run) = true /\ bits_of out = bits_of clip)
  /\
  (forall clip radius thr grains lthr elast bright_thr (debander : DebanderT) out,
    let run := funcs.mdb_bilateral clip radius thr grains lthr elast bright_thr debander in
    outcome run = Ok out ->
    enters_debanding_at 16 (events run) = true /\ bits_of out = bits_of clip)
  /\
  (forall clip radius threshold grain f3kdb_args out,
    let run := debanders.lfdeband clip radius threshold grain f3kdb_args in
    outcome run = Ok out ->
    enters_debanding_at 16 (events run) = true /\ bits_of out = bits_of clip)
  /\
  (forall clip radius threshold grain f3kdb_args limflt_args,
    converts_depth
      (events (debanders.f3kpf clip radius threshold grain f3kdb_args limflt_args)) = false)
  /\
  (forall clip radius thr grains lthr elast bright_thr (prefilter : VSFunction)
          (debander : DebanderT) kwargs,
    converts_depth
      (events (funcs.pfdeband clip radius thr grains lthr elast bright_thr
                 prefilter debander kwargs)) = false).
Proof.
  intros laws. repeat apply conj.
  - intros clip radius threshold grain f3kdb_args limflt_args out run. subst run.
    run_pipeline (debanders.f3kbilateral clip radius threshold grain f3kdb_args limflt_args);
      intros; subst; try discriminate.
    all: split;
      [ cbn; erewrite depth_bits by eassumption; now apply bool_decide_eq_true
      | erewrite depth_bits by eassumption; symmetry; now apply bits_of_format ].
  - intros clip radius thr grains lthr elast bright_thr debander out run. subst run.
    run_pipeline (funcs.mdb_bilateral clip radius thr grains lthr elast bright_thr debander);
      intros; subst; try discriminate.
    all: split;
      [ cbn;
        first [ erewrite depth_bits by eassumption
              | erewrite bits_of_format by eassumption;
                match goal with H : (_ =? 16) = true |- _ => apply Z.eqb_eq in H; rewrite H end ];
        now apply bool_decide_eq_true
      | erewrite depth_bits by eassumption; symmetry; now apply bits_of_format ].
  - intros clip radius threshold grain f3kdb_args out run. subst run.
    run_pipeline (debanders.lfdeband clip radius threshold grain f3kdb_args);
      intros; subst; try discriminate.
    all: split;
      [ cbn; erewrite Spline64_bits by eassumption;
        erewrite depth_bits by eassumption; now apply bool_decide_eq_true
      | erewrite depth_bits by eassumption; symmetry; now apply bits_of_format ].
  - intros clip radius threshold grain f3kdb_args limflt_args.
    run_pipeline (debanders.f3kpf clip radius threshold grain f3kdb_args limflt_args);
      reflexivity.
  - intros clip radius thr grains lthr elast bright_thr prefilter debander kwargs.
    run_pipeline (funcs.pfdeband clip radius thr grains lthr elast bright_thr
                    prefilter debander kwargs);
      reflexivity.
Qed.

End WorkingDepth.

Section Prefilter.
Context {Clip : Type} {host : @Host Clip}.
Local Abbreviation Debander := (@Debander Clip) (only parsing).
Local Abbreviation DebanderT := (@DebanderT Clip) (only parsing).
Local Abbreviation ScalerT := (@ScalerT Clip) (only parsing).
Local Abbreviation VSFunction := (@VSFunction Clip) (only parsing).
Local Abbreviation PyObj := (@PyObj Clip) (only parsing).

(** C2.  Whatever the host, the scalers and the debander, the debanding
    stage of [vsdeband.funcs.lfdeband] is never given the downscaled clip:
    every call it makes to [debander.deband] passes the function
    [vsrgtools.blur], and a run that returns has made exactly that call. *)
Theorem funcs_lfdeband_debands_blur_function
    (clip : Clip) (radius : Z) (thr grains : IntOrList) (scale : Z)
    (scaler : ScalerT) (upscaler : option ScalerT) (debander : DebanderT) :
  let run := funcs.lfdeband clip radius thr grains scale scaler upscaler debander in
  Forall (fun o : PyObj => o = ObjFunction "vsrgtools.blur") (deband_inputs (events run)) /\
  (forall out, outcome run = Ok out ->
     deband_inputs (events run) = [ObjFunction "vsrgtools.blur"]).
Proof.
  intros run. subst run.
  run_pipeline (funcs.lfdeband clip radius thr grains scale scaler upscaler debander);
    cbn; (split; [ repeat constructor | intros; subst; try discriminate; reflexivity ]).
Qed.

(** X8.  The sibling [debandshit.debanders.lfdeband] does what C2 describes: the
    debander receives the downscaled clip, the difference is scaled back to
    the input's width and height, merged onto the 16-bit input, and the
    returned clip has the input's dimensions. *)
Lemma debanders_lfdeband_round_trip
    (clip : Clip) (radius : Z) (threshold grain : IntOrList) (f3kdb_args : Kwargs) out :
  HostLaws ->
  let run := debanders.lfdeband clip radius threshold grain f3kdb_args in
  outcome run = Ok out ->
  (exists clip16 dsc self d3kdb ddif dif merged w' h',
      ext_depth clip 16 = Ok clip16 /\
      ext_Spline64 clip16 w' h' = Ok dsc /\
      ext_F3kdb_deband self dsc = Ok d3kdb /\
      ext_MakeDiff d3kdb dsc = Ok ddif /\
      ext_Spline64 ddif (width clip) (height clip) = Ok dif /\
      ext_MergeDiff clip16 dif = Ok merged /\
      deband_inputs (events run) = [ObjClip dsc]) /\
  width out = width clip /\ height out = height clip.
Proof.
  intros laws run. subst run.
  run_pipeline (debanders.lfdeband clip radius threshold grain f3kdb_args);
    intros; subst; try discriminate.
  all: split; [ do 9 eexists; repeat split; eauto | ].
  all: repeat match goal with
       | H : ext_depth _ _ = Ok _ |- _ => apply depth_size in H
       | H : ext_MergeDiff _ _ = Ok _ |- _ => apply MergeDiff_size in H
       end; intuition congruence.
Qed.

(** X9.  [debandshit.debanders.lfdeband] resizes twice: down to a size that is a
    multiple of the chroma subsampling factors, then back to the size of the
    input. *)
Lemma debanders_lfdeband_sizes
    (clip : Clip) (radius : Z) (threshold grain : IntOrList) (f3kdb_args : Kwargs)
    (fmt : VideoFormat) out :
  let run := debanders.lfdeband clip radius threshold grain f3kdb_args in
  format clip = Some fmt ->
  outcome run = Ok out ->
  exists dw dh,
    resize_sizes (events run) = [(dw, dh); (width clip, height clip)] /\
    dw mod (Z.shiftl 1 (subsampling_w fmt)) = 0 /\
    dh mod (Z.shiftl 1 (subsampling_h fmt)) = 0.
Proof.
  intros run Hfmt. subst run.
  run_pipeline (debanders.lfdeband clip radius threshold grain f3kdb_args);
    intros; subst; try discriminate.
  all: match goal with H : Some _ = Some _ |- _ => injection H as -> end.
  all: eexists _, _; cbn; split; [ reflexivity | ].
  all: split; apply downscaled_size_congruent; rewrite Z.shiftl_1_l;
    apply Z.pow_pos_nonneg; lia.
Qed.

(** C4, as the code has it.  In [pfdeband], when the call
    [prefilter(clip, planes=0, **kwargs)] raises an [Exception], the
    prefilter is called once more without [planes] and the pipeline goes on
    with that result: the next call is [MakeDiff(clip, blur)] and the
    debander receives [blur].  [f3kpf] has a fixed convolution prefilter: an
    error of its [planes=0] convolution ends the run, with no further call. *)
Theorem pfdeband_prefilter_fallback :
  (forall clip radius thr grains lthr elast bright_thr (prefilter : VSFunction)
          (debander : DebanderT) d kwargs cls msg blur,
    let run := funcs.pfdeband clip radius thr grains lthr elast bright_thr
                 prefilter debander kwargs in
    funcs.check_variable clip "pfdeband" = Ok true ->
    outcome (funcs.ensure_debander debander) = Ok d ->
    prefilter clip (Some 0) kwargs = Raise (Exc cls msg) ->
    prefilter clip None kwargs = Ok blur ->
    prefilter_calls (events run) = [Some 0; None] /\
    Forall (fun o : PyObj => o = ObjClip blur) (deband_inputs (events run)) /\
    exists rest,
      events run = events (funcs.ensure_debander debander)
                   ++ EvPrefilter clip (Some 0) kwargs
                   :: EvPrefilter clip None kwargs
                   :: EvMakeDiff clip blur :: rest)
  /\
  (forall clip radius threshold grain f3kdb_args limflt_args fmt blur0 e,
    format clip = Some fmt ->
    ext_Convolution clip [1; 2; 1; 2; 4; 2; 1; 2; 1] None = Ok blur0 ->
    ext_Convolution blur0 (replicate 9 1) (Some 0) = Raise e ->
    debanders.f3kpf clip radius threshold grain f3kdb_args limflt_args
    = ([EvConvolution clip [1; 2; 1; 2; 4; 2; 1; 2; 1] None;
        EvConvolution blur0 (replicate 9 1) (Some 0)], Raise e)).
Proof.
  split.
  - intros clip radius thr grains lthr elast bright_thr prefilter debander d kwargs
      cls msg blur run Hcheck Hdeb Hfirst Hretry. subst run.
    unfold funcs.pfdeband, funcs.py_assert, try_except, call_prefilter, call, lift.
    rewrite Hcheck, Hfirst, Hretry.
    destruct debander as [construct | d0]; cbn in Hdeb; subst.
    all: unfold_calls; cbn.
    all: repeat match goal with
         | |- context [match ?r with Ok _ => _ | Raise _ => _ end] => destruct r eqn:?; cbn
         end.
    all: repeat split; cbn; repeat constructor; eauto.
  - intros clip radius threshold grain f3kdb_args limflt_args fmt blur0 e Hfmt Hc0 Hc1.
    unfold debanders.f3kpf. rewrite Hfmt. unfold_calls. cbn.
    cbn in Hc1. rewrite Hc0. cbn. rewrite Hc1. reflexivity.
Qed.

(** C10.  In [pfdeband] the fallback is taken for every [Exception]
    whatever its class; the prefilter is then called exactly once more,
    without [planes], and what that call raises is what [pfdeband] raises. *)
Theorem pfdeband_fallback_catches_any_exception
    clip radius thr grains lthr elast bright_thr (prefilter : VSFunction)
    (debander : DebanderT) d kwargs cls msg e :
  let run := funcs.pfdeband clip radius thr grains lthr elast bright_thr
               prefilter debander kwargs in
  funcs.check_variable clip "pfdeband" = Ok true ->
  outcome (funcs.ensure_debander debander) = Ok d ->
  prefilter clip (Some 0) kwargs = Raise (Exc cls msg) ->
  prefilter clip None kwargs = Raise e ->
  outcome run = Raise e /\
  prefilter_calls (events run) = [Some 0; None] /\
  events run = events (funcs.ensure_debander debander)
               ++ [EvPrefilter clip (Some 0) kwargs; EvPrefilter clip None kwargs].
Proof.
  intros run Hcheck Hdeb Hfirst Hretry. subst run.
  unfold funcs.pfdeband, funcs.py_assert, try_except, call_prefilter, call, lift.
  rewrite Hcheck, Hfirst, Hretry.
  destruct debander as [construct | d0]; cbn in Hdeb; subst; cbn; repeat split.
Qed.

(** X7.  In [pfdeband] an exception outside [Exception] raised by the first
    prefilter call is not caught: it is the outcome of the run and the
    prefilter is not called a second time. *)
Lemma pfdeband_base_exception_propagates
    clip radius thr grains lthr elast bright_thr (prefilter : VSFunction)
    (debander : DebanderT) d kwargs cls :
  let run := funcs.pfdeband clip radius thr grains lthr elast bright_thr
               prefilter debander kwargs in
  funcs.check_variable clip "pfdeband" = Ok true ->
  outcome (funcs.ensure_debander debander) = Ok d ->
  prefilter clip (Some 0) kwargs = Raise (BaseExc cls) ->
  outcome run = Raise (BaseExc cls) /\ prefilter_calls (events run) = [Some 0].
Proof.
  intros run Hcheck Hdeb Hfirst. subst run.
  unfold funcs.pfdeband, funcs.py_assert, try_except, call_prefilter, call, lift.
  rewrite Hcheck, Hfirst.
  destruct debander as [construct | d0]; cbn in Hdeb; subst; cbn; repeat split.
Qed.

End Prefilter.

Section GuidedDeband.
Context {Clip : Type} {host : @Host Clip}.
Local Abbreviation PyObj := (@PyObj Clip) (only parsing).

(** C5, as the code has it.  In [guided_deband] the value
    [ceil(clip.height / 540)] is the default of the mask radius [rad]: with
    [rad=None] every [expand] and [inpand] call uses it, and a run that
    returns on a clip of positive height has made both calls.  The guided
    filter receives the caller's [radius] unchanged, [None] included. *)
Theorem mask_radius_defaults_from_height
    (clip : Clip) (radius : option IntOrList) (strength : pyfloat)
    (thr : option FloatOrList) (mode : GuidedFilterMode)
    (bin_thr : option FloatOrList) (planes : option IntOrList)
    (range_in : option ColorRange) (kwargs : Kwargs) :
  let run := funcs.guided_deband clip radius strength thr mode None bin_thr planes
               range_in kwargs in
  Forall (fun r => r = py_ceil_div (height clip) 540) (mask_radii (events run)) /\
  Forall (fun r => r = radius) (guided_filter_radii (events run)) /\
  (forall out, outcome run = Ok out -> 0 < height clip ->
     mask_radii (events run) = [py_ceil_div (height clip) 540; py_ceil_div (height clip) 540] /\
     guided_filter_radii (events run) = [radius]).
Proof.
  intros run. subst run.
  pose proof (py_ceil_div_pos (height clip) 540) as Hceil.
  run_pipeline (funcs.guided_deband clip radius strength thr mode None bin_thr planes
                  range_in kwargs).
  all: cbn; split; [ repeat constructor | split; [ repeat constructor | ] ].
  all: intros result Hout Hpos; try discriminate.
  all: try (split; reflexivity).
  all: match goal with H : (_ =? 0) = true |- _ => cbn in H; apply Z.eqb_eq in H; lia end.
Qed.

Lemma resolve_range_events (clip : Clip) (range_in : option ColorRange) :
  events (funcs.resolve_range clip range_in) = []
  \/ events (funcs.resolve_range clip range_in) = [EvColorRangeFromVideo clip].
Proof.
  unfold funcs.resolve_range, call, ret.
  destruct range_in as [r | ]; [ destruct (ColorRange_value r =? 0) | ]; cbn; auto.
Qed.

(** C6.  On an integer-format clip with [bin_thr=None], [guided_deband]
    asks [scale_value] for the threshold with the three arguments
    [0.005859375], [32] and the function [scale_value] itself: neither the
    clip nor the colour range is passed.  When that call raises, the run ends
    there and no mask is binarized. *)
Theorem integer_bin_thr_ignores_clip
    (clip : Clip) (fmt : VideoFormat) (radius : option IntOrList) (strength : pyfloat)
    (thr : option FloatOrList) (mode : GuidedFilterMode) (rad : option Z)
    (planes : option IntOrList) (range_in : option ColorRange) (kwargs : Kwargs)
    (ps : list Z) (r : ColorRange) :
  let run := funcs.guided_deband clip radius strength thr mode rad None planes
               range_in kwargs in
  let asked : pyfloat * Z * PyObj :=
    (float_lit 5859375 1000000000, 32, ObjFunction "vstools.scale_value") in
  funcs.check_variable clip "guided_deband" = Ok true ->
  format clip = Some fmt ->
  sample_type fmt = INTEGER ->
  ext_normalize_planes clip planes = Ok ps ->
  outcome (funcs.resolve_range clip range_in) = Ok r ->
  scale_value_calls (events run) = [asked] /\
  (forall e,
    ext_scale_value (float_lit 5859375 1000000000) 32 (ObjFunction "vstools.scale_value")
      = Raise e ->
    outcome run = Raise e /\ existsb is_binarize_event (events run) = false).
Proof.
  intros run asked Hcheck Hfmt Hst Hps Hr. subst run asked.
  destruct (funcs.guided_deband _ _ _ _ _ _ _ _ _ _) as [log res] eqn:E.
  cbn [outcome events fst snd].
  unfold funcs.guided_deband in E.
  rewrite Hcheck, Hps in E.
  destruct (funcs.resolve_range clip range_in) as [lr [r0 | e0]] eqn:Er;
    cbn in Hr; [ | discriminate ].
  unfold funcs.py_assert, funcs.get_format, call, lift, ret, raise in E. cbn in E.
  rewrite Hfmt in E. cbn in E. rewrite Hst in E.
  pose proof (resolve_range_events clip range_in) as Hlr.
  rewrite Er in Hlr. cbn in Hlr.
  unfold_calls. clear Er. run_in E; try discriminate.
  all: inversion E; subst; clear E.
  all: destruct Hlr as [-> | ->]; cbn.
  all: split; [ reflexivity | intros e' He'; split; congruence ].
Qed.

End GuidedDeband.

(** ** The pipelines on the reference host *)

#[local] Existing Instance Ref.host.

Lemma ref_host_laws : @HostLaws Ref.RClip Ref.host.
Proof.
  split.
  - intros c b c'. cbn. unfold bits_of. cbn.
    destruct (Ref.r_format c) eqn:Hf; intros [= <-]. cbn. now rewrite Hf.
  - intros c b c'. cbn. destruct (Ref.r_format c); intros [= <-]. now split.
  - intros a b c' [= <-]. now split.
  - intros c w h c' [= <-]. reflexivity.
Qed.

(** C3 as stated fails on [dumb3kdb]: given a variable-format clip it
    constructs the debander and calls its [deband] on that clip; the error of
    the run is the one that call raises. *)
Lemma dumb3kdb_checks_nothing_itself :
  let run := debanders.dumb3kdb (host := Ref.host) Ref.clip_variable 16 (IntVal 30)
               (IntVal 0) 2 false ∅ in
  deband_inputs (events run) = [ObjClip Ref.clip_variable] /\
  length (events run) = 2%nat /\
  outcome run = Raise (Exc "ValueError" "deband: 'Variable-format clips not supported'").
Proof. vm_compute. repeat split. Qed.

(** C1 as stated fails on [pfdeband]: an 8-bit clip reaches the debander at
    8 bits, no depth conversion is made, and the run succeeds. *)
Lemma pfdeband_debands_at_input_depth :
  let run := funcs.pfdeband (host := Ref.host) Ref.clip8 16 (IntVal 30) (IntVal 0)
               (IntList [76; 0]) (float_lit 5 2) None funcs.default_prefilter
               (DebanderInst Ref.debander) ∅ in
  outcome run = Ok Ref.clip8 /\
  enters_debanding_at 16 (events run) = false /\
  enters_debanding_at 8 (events run) = true.
Proof. vm_compute. repeat split. Qed.

Lemma working_depth_round_trip_witness :
  let run := debanders.f3kbilateral (host := Ref.host) Ref.clip8 16 (IntVal 65) (IntVal 0)
               None None in
  outcome run = Ok Ref.clip8 /\
  enters_debanding_at 16 (events run) = true /\
  bits_of Ref.clip8 = Some 8.
Proof.
  split; [ reflexivity | ].
  exact (proj1 (working_depth_round_trip (host := Ref.host) ref_host_laws)
           Ref.clip8 16 (IntVal 65) (IntVal 0) None None Ref.clip8 eq_refl).
Defined.

(** C2 at the failing input: on the reference host, whose debander accepts
    clips only, [vsdeband.funcs.lfdeband] hands it the function and the run
    ends in its error. *)
Lemma funcs_lfdeband_fails_on_reference_host :
  let run := funcs.lfdeband (host := Ref.host) Ref.clip8 30 (IntVal 80) (IntVal 0) 2
               (ScalerClass "Spline64") None (DebanderInst Ref.debander) in
  deband_inputs (events run) = [ObjFunction "vsrgtools.blur"] /\
  outcome run = Raise (Exc "AttributeError" "'function' object has no attribute 'format'").
Proof. vm_compute. split; reflexivity. Qed.

(** With a debander that tolerates the function, the run reaches
    [upscaler.Spline64] and ends there: a scaler has no such attribute. *)
Lemma funcs_lfdeband_upscaler_attribute :
  outcome (funcs.lfdeband (host := Ref.host) Ref.clip8 30 (IntVal 80) (IntVal 0) 2
             (ScalerClass "Spline64") None (DebanderInst Ref.lenient_debander))
  = Raise (Exc "AttributeError" "object has no attribute 'Spline64'").
Proof. vm_compute. reflexivity. Qed.

(** Even with stand-ins that tolerate both the function argument and the
    [Spline64] attribute, so that the run returns, the debander was handed
    the function. *)
Lemma funcs_lfdeband_debands_blur_function_witness :
  deband_inputs
    (events (funcs.lfdeband (host := Ref.host) Ref.clip8 30 (IntVal 80) (IntVal 0) 2
               (ScalerInst Ref.duck_scaler) None (DebanderInst Ref.lenient_debander)))
  = [ObjFunction "vsrgtools.blur"].
Proof.
  exact (proj2 (funcs_lfdeband_debands_blur_function (host := Ref.host)
           Ref.clip8 30 (IntVal 80) (IntVal 0) 2 (ScalerInst Ref.duck_scaler) None
           (DebanderInst Ref.lenient_debander)) Ref.clip8 eq_refl).
Defined.

Lemma debanders_lfdeband_on_reference_host :
  let run := debanders.lfdeband (host := Ref.host) Ref.clip8 30 (IntVal 80) (IntVal 0) ∅ in
  outcome run = Ok Ref.clip8 /\
  deband_inputs (events run) = [ObjClip (Ref.mkClip (Some (Ref.yuv420 16 INTEGER)) 960 540)].
Proof. vm_compute. split; reflexivity. Qed.

(** C4 as stated fails on [f3kpf]: on a host whose convolution rejects the
    [planes] keyword the run makes its two convolution calls, the second with
    [planes=0], and ends in that call's error; nothing is retried. *)
Lemma f3kpf_does_not_retry :
  let run := debanders.f3kpf (host := Ref.host_no_planes) Ref.clip8 16 (IntVal 30) (IntVal 0)
               None None in
  convolution_calls (events run) = [None; Some 0] /\
  length (events run) = 2%nat /\
  outcome run = Raise (Exc "TypeError" "unexpected keyword argument 'planes'").
Proof. vm_compute. repeat split. Qed.

Lemma pfdeband_prefilter_fallback_witness :
  let run := funcs.pfdeband (host := Ref.host) Ref.clip8 16 (IntVal 30) (IntVal 0)
               (IntList [76; 0]) (float_lit 5 2) None Ref.prefilter_no_planes
               (DebanderInst Ref.debander) ∅ in
  prefilter_calls (events run) = [Some 0; None] /\
  Forall (fun o => o = ObjClip Ref.clip8) (deband_inputs (events run)) /\
  exists rest,
    events run = [] ++ EvPrefilter Ref.clip8 (Some 0) ∅
                 :: EvPrefilter Ref.clip8 None ∅
                 :: EvMakeDiff Ref.clip8 Ref.clip8 :: rest.
Proof.
  exact (proj1 (pfdeband_prefilter_fallback (host := Ref.host))
           Ref.clip8 16 (IntVal 30) (IntVal 0) (IntList [76; 0]) (float_lit 5 2) None
           Ref.prefilter_no_planes (DebanderInst Ref.debander) Ref.debander ∅
           "TypeError" "unexpected keyword argument 'planes'" Ref.clip8
           eq_refl eq_refl eq_refl eq_refl).
Defined.

Lemma pfdeband_fallback_catches_any_exception_witness :
  let run := funcs.pfdeband (host := Ref.host) Ref.clip8 16 (IntVal 30) (IntVal 0)
               (IntList [76; 0]) (float_lit 5 2) None Ref.prefilter_broken
               (DebanderInst Ref.debander) ∅ in
  outcome run = Raise (Exc "RuntimeError" "second attempt") /\
  prefilter_calls (events run) = [Some 0; None] /\
  events run = [] ++ [EvPrefilter Ref.clip8 (Some 0) ∅; EvPrefilter Ref.clip8 None ∅].
Proof.
  exact (pfdeband_fallback_catches_any_exception (host := Ref.host)
           Ref.clip8 16 (IntVal 30) (IntVal 0) (IntList [76; 0]) (float_lit 5 2) None
           Ref.prefilter_broken (DebanderInst Ref.debander) Ref.debander ∅
           "RuntimeError" "first attempt" (Exc "RuntimeError" "second attempt")
           eq_refl eq_refl eq_refl eq_refl).
Defined.

(** C5 as stated fails: on a 1080-line clip, for which
    [ceil(height / 540)] is 2, a call without [radius] hands [None] to the
    guided filter. *)
Lemma guided_filter_radius_not_defaulted :
  let run := funcs.guided_deband (host := Ref.host) Ref.clip8 None (float_lit 3 10) None
               GRADIENT (Some 0) (Some (FloatVal (float_lit 0 1))) None None ∅ in
  py_ceil_div (height (Host := Ref.host) Ref.clip8) 540 = 2 /\
  guided_filter_radii (events run) = [None] /\
  outcome run = Ok Ref.clip8.
Proof. vm_compute. repeat split. Qed.

(** With [rad=None] the mask is built with radius 2 on that clip. *)
Lemma mask_radius_defaults_from_height_witness :
  let run := funcs.guided_deband (host := Ref.host) Ref.clip8 None (float_lit 3 10) None
               GRADIENT None (Some (FloatVal (float_lit 0 1))) None None ∅ in
  mask_radii (events run) = [2; 2] /\ guided_filter_radii (events run) = [None].
Proof.
  exact (proj2 (proj2 (mask_radius_defaults_from_height (host := Ref.host)
           Ref.clip8 None (float_lit 3 10) None GRADIENT
           (Some (FloatVal (float_lit 0 1))) None None ∅)) Ref.clip8 eq_refl eq_refl).
Defined.

Lemma integer_bin_thr_ignores_clip_witness :
  let run := funcs.guided_deband (host := Ref.host) Ref.clip8 None (float_lit 3 10) None
               GRADIENT (Some 1) None None None ∅ in
  scale_value_calls (events run)
  = [(float_lit 5859375 1000000000, 32, ObjFunction "vstools.scale_value")] /\
  outcome run = Raise (Exc "AttributeError" "'function' object has no attribute 'format'") /\
  existsb is_binarize_event (events run) = false.
Proof.
  pose proof (integer_bin_thr_ignores_clip (host := Ref.host)
           Ref.clip8 (Ref.yuv420 8 INTEGER) None (float_lit 3 10) None GRADIENT (Some 1)
           None None ∅ [0; 1; 2] LIMITED eq_refl eq_refl eq_refl eq_refl eq_refl) as [Hcalls Hraise].
  split; [ exact Hcalls | exact (Hraise _ eq_refl) ].
Defined.

(** On a float clip the threshold does follow the colour range, and the
    mask is binarized. *)
Lemma float_bin_thr_from_range :
  let run := funcs.guided_deband (host := Ref.host) Ref.clip32f None (float_lit 3 10) None
               GRADIENT (Some 1) None None None ∅ in
  omap (fun ev => match ev with EvBinarize _ t _ => Some t | _ => None end) (events run)
  = [[QArith_base.Qdiv (float_lit 3 2) (float_lit 219 1);
      QArith_base.Qdiv (float_lit 3 2) (float_lit 224 1);
      QArith_base.Qdiv (float_lit 3 2) (float_lit 224 1)]] /\
  outcome run = Ok Ref.clip32f.
Proof. vm_compute. split; reflexivity. Qed.

(** With the default [bin_thr=0] nothing is binarized. *)
Lemma default_bin_thr_no_binarize :
  existsb is_binarize_event
    (events (funcs.guided_deband (host := Ref.host) Ref.clip8 None (float_lit 3 10) None
               GRADIENT (Some 1) (Some (FloatVal (float_lit 0 1))) None None ∅))
  = false.
Proof. vm_compute. reflexivity. Qed.


Example stage_radii_16 : stage_radii 16 = (21, 11, 5).
Proof. reflexivity. Qed.

Example stage_radii_1 : stage_radii 1 = (1, 1, 0).
Proof. reflexivity. Qed.

Lemma first_pass_thresholds_halved_witness :
  deband_thrs
    (events (funcs.mdb_bilateral (host := Ref.host) Ref.clip8 16 (IntList [65; 40; 1])
               (IntVal 0) (IntList [153; 0]) (float_lit 3 1) None
               (DebanderInst Ref.debander)))
  = [IntList [32; 20; 1]; IntList [65; 40; 1]; IntList [65; 40; 1]].
Proof.
  exact (proj1 (first_pass_thresholds_halved (host := Ref.host))
           Ref.clip8 16 (IntList [65; 40; 1]) (IntVal 0) (IntList [153; 0]) (float_lit 3 1)
           None (DebanderInst Ref.debander) Ref.clip8 eq_refl).
Defined.

Example f3kbilateral_thresholds :
  f3kdb_deband_thrs
    (events (debanders.f3kbilateral (host := Ref.host) Ref.clip8 16 (IntVal 65) (IntVal 0)
               None None))
  = [(32, 32, 32); (65, 65, 65); (65, 65, 65)].
Proof. vm_compute. reflexivity. Qed.

(** * Further properties of the pipelines *)

Section BilateralStages.
Context {Clip : Type} {host : @Host Clip}.
Local Abbreviation DebanderT := (@DebanderT Clip) (only parsing).


(** X2.  In the two bilateral pipelines grain is laid only after limiting:
    the passes are run with grain 0, and a run that returns has called
    [grain] on the output of [limit_filter], once when the caller's grain is
    truthy and not at all otherwise. *)
Theorem grain_only_after_limiting :
  (forall clip radius thr grains lthr elast bright_thr (debander : DebanderT) out,
    let run := funcs.mdb_bilateral clip radius thr grains lthr elast bright_thr debander in
    outcome run = Ok out ->
    deband_grains (events run) = [IntVal 0; IntVal 0; IntVal 0] /\
    exists flt src ref kw limit,
      limit_filter_calls (events run) = [(flt, src, ref, kw)] /\
      ext_limit_filter flt src ref kw = Ok limit /\
      grain_inputs (events run) = (if truthy_int_or_list grains then [limit] else []) /\
      grain_amounts (events run) = (if truthy_int_or_list grains then [grains] else []))
  /\
  (forall clip radius threshold grain f3kdb_args limflt_args out,
    let run := debanders.f3kbilateral clip radius threshold grain f3kdb_args limflt_args in
    outcome run = Ok out ->
    f3kdb_new_grains (events run)
    = [Some (IntVal 0); Some (IntVal 0); Some (IntVal 0)]
      ++ (if truthy_int_or_list grain then [Some grain] else []) /\
    exists flt src ref kw limit,
      limit_filter_calls (events run) = [(flt, src, ref, kw)] /\
      ext_limit_filter flt src ref kw = Ok limit /\
      grain_inputs (events run) = (if truthy_int_or_list grain then [limit] else [])).
Proof.
  split.
  - intros clip radius thr grains lthr elast bright_thr debander out run. subst run.
    run_pipeline (funcs.mdb_bilateral clip radius thr grains lthr elast bright_thr debander);
      intros; subst; try discriminate.
    all: split; [ reflexivity | eexists _, _, _, _, _; cbn; repeat split; eauto ].
  - intros clip radius threshold grain f3kdb_args limflt_args out run. subst run.
    run_pipeline (debanders.f3kbilateral clip radius threshold grain f3kdb_args limflt_args);
      intros; subst; try discriminate.
    all: split; [ reflexivity | eexists _, _, _, _, _; cbn; repeat split; eauto ].
Qed.

End BilateralStages.

Section KeywordDictionaries.
Context {Clip : Type} {host : @Host Clip}.

Lemma merge_args_lookup (defaults : Kwargs) (given : option Kwargs) (k : string) :
  merge_args defaults given !! k
  = match given ≫= (fun g => g !! k) with
    | Some v => Some v
    | None => defaults !! k
    end.
Proof.
  destruct given as [g | ]; cbn; [ | reflexivity ].
  unfold dict_ior. rewrite lookup_union.
  destruct (g !! k), (defaults !! k); reflexivity.
Qed.

Lemma merge_args_empty (given : option Kwargs) :
  merge_args ∅ given = default ∅ given.
Proof.
  destruct given as [g | ]; cbn; [ | reflexivity ].
  unfold dict_ior. apply (right_id_L ∅ (∪)).
Qed.

(** X3.  The keyword dictionaries of [f3kbilateral] and [f3kpf]: every
    [F3kdb] instance is constructed with exactly the caller's [f3kdb_args]
    (nothing when it is [None]), and [limit_filter] receives, key by key, the
    caller's [limflt_args] entry when there is one and otherwise the default
    of the function ([thr], [elast], [thrc]). *)
Theorem keyword_dictionaries_merged
    (clip : Clip) (radius : Z) (threshold grain : IntOrList)
    (f3kdb_args limflt_args : option Kwargs) :
  let given (k : string) : option Lit := limflt_args ≫= (fun g => g !! k) in
  let merged (thr elast : pyfloat) (kw : Kwargs) : Prop :=
    forall k, kw !! k
      = match given k with
        | Some v => Some v
        | None =>
          if String.eqb k "thr" then Some (LFloat thr)
          else if String.eqb k "elast" then Some (LFloat elast)
          else if String.eqb k "thrc" then Some LNone
          else None
        end in
  let bilateral := events (debanders.f3kbilateral clip radius threshold grain
                             f3kdb_args limflt_args) in
  let pf := events (debanders.f3kpf clip radius threshold grain f3kdb_args limflt_args) in
  Forall (fun kw => kw = default ∅ f3kdb_args) (f3kdb_new_kwargs bilateral) /\
  Forall (fun kw => kw = default ∅ f3kdb_args) (f3kdb_new_kwargs pf) /\
  Forall (fun c => merged (float_lit 6 10) (float_lit 3 1) (snd c)) (limit_filter_calls bilateral) /\
  Forall (fun c => merged (float_lit 3 10) (float_lit 5 2) (snd c)) (limit_filter_calls pf).
Proof.
  intros given merged bilateral pf. subst bilateral pf.
  assert (Hdflt : forall thr elast,
    merged thr elast
      (merge_args (<["thr" := LFloat thr]> (<["elast" := LFloat elast]> (<["thrc" := LNone]> ∅)))
         limflt_args)).
  { intros thr elast k. subst merged given. cbn beta. rewrite merge_args_lookup.
    destruct (limflt_args ≫= _); [ reflexivity | ].
    destruct (String.eqb_spec k "thr") as [-> | H1]; [ now rewrite lookup_insert_eq | ].
    rewrite lookup_insert_ne by congruence.
    destruct (String.eqb_spec k "elast") as [-> | H2]; [ now rewrite lookup_insert_eq | ].
    rewrite lookup_insert_ne by congruence.
    destruct (String.eqb_spec k "thrc") as [-> | H3]; [ now rewrite lookup_insert_eq | ].
    rewrite lookup_insert_ne by congruence. apply lookup_empty. }
  rewrite <- merge_args_empty.
  repeat apply conj.
  - run_pipeline (debanders.f3kbilateral clip radius threshold grain f3kdb_args limflt_args);
      cbn; repeat constructor.
  - run_pipeline (debanders.f3kpf clip radius threshold grain f3kdb_args limflt_args);
      cbn; repeat constructor.
  - run_pipeline (debanders.f3kbilateral clip radius threshold grain f3kdb_args limflt_args);
      cbn; repeat constructor; apply Hdflt.
  - run_pipeline (debanders.f3kpf clip radius threshold grain f3kdb_args limflt_args);
      cbn; repeat constructor; apply Hdflt.
Qed.

End KeywordDictionaries.

Section Prefiltered.
Context {Clip : Type} {host : @Host Clip}.
Local Abbreviation DebanderT := (@DebanderT Clip) (only parsing).
Local Abbreviation VSFunction := (@VSFunction Clip) (only parsing).
Local Abbreviation PyObj := (@PyObj Clip) (only parsing).

(** X4.  In [pfdeband], once the prefilter call with [planes=0] has
    returned, the prefilter is never called again: the debander receives
    that result, and an error of a later step ends the run without a retry. *)
Theorem pfdeband_no_retry_after_success
    clip radius thr grains lthr elast bright_thr (prefilter : VSFunction)
    (debander : DebanderT) d kwargs blur :
  let run := funcs.pfdeband clip radius thr grains lthr elast bright_thr
               prefilter debander kwargs in
  funcs.check_variable clip "pfdeband" = Ok true ->
  outcome (funcs.ensure_debander debander) = Ok d ->
  prefilter clip (Some 0) kwargs = Ok blur ->
  prefilter_calls (events run) = [Some 0] /\
  Forall (fun o : PyObj => o = ObjClip blur) (deband_inputs (events run)) /\
  (forall diff e,
     ext_MakeDiff clip blur = Ok diff ->
     deband d (ObjClip blur) radius thr grains = Raise e ->
     outcome run = Raise e /\ deband_inputs (events run) = [ObjClip blur]).
Proof.
  intros run Hcheck Hdeb Hfirst. subst run.
  unfold funcs.pfdeband, funcs.py_assert, try_except, call_prefilter, call, lift.
  rewrite Hcheck, Hfirst.
  destruct debander as [construct | d0]; cbn in Hdeb;
      [ subst construct | injection Hdeb as -> ].
  all: unfold_calls; cbn.
  all: destruct (ext_MakeDiff clip blur) as [diff0 | e0] eqn:Hdiff; cbn.
  all: try (repeat split; [ repeat constructor | intros; discriminate ]).
  all: destruct (deband d (ObjClip blur) radius thr grains) as [db | e1] eqn:Hdb; cbn.
  all: repeat match goal with
       | |- context [match ?r with Ok _ => _ | Raise _ => _ end] => destruct r eqn:?; cbn
       end.
  all: repeat split; repeat constructor; intros; congruence.
Qed.

(** X5.  What [pfdeband] and [f3kpf] return is the limited, debanded blur
    with the difference between the input and its blur merged back.  So when
    the debander leaves the blur as it is, limiting a clip against itself
    changes nothing, and [MergeDiff] undoes [MakeDiff], both return the input
    unchanged. *)
Theorem prefiltered_pipelines_restore_detail :
  (forall a b diff, ext_MakeDiff a b = Ok diff -> ext_MergeDiff b diff = Ok a) ->
  (forall c kw, ext_limit_filter c c None kw = Ok c) ->
  (forall clip radius thr grains lthr elast bright_thr (prefilter : VSFunction)
          (debander : DebanderT) d kwargs blur diff,
    funcs.check_variable clip "pfdeband" = Ok true ->
    outcome (funcs.ensure_debander debander) = Ok d ->
    prefilter clip (Some 0) kwargs = Ok blur ->
    ext_MakeDiff clip blur = Ok diff ->
    deband d (ObjClip blur) radius thr grains = Ok blur ->
    outcome (funcs.pfdeband clip radius thr grains lthr elast bright_thr
               prefilter debander kwargs) = Ok clip)
  /\
  (forall clip radius threshold grain f3kdb_args limflt_args fmt blur0 blur diff self,
    format clip = Some fmt ->
    ext_Convolution clip [1; 2; 1; 2; 4; 2; 1; 2; 1] None = Ok blur0 ->
    ext_Convolution blur0 (replicate 9 1) (Some 0) = Ok blur ->
    ext_MakeDiff clip blur = Ok diff ->
    ext_F3kdb (Some radius) (Some threshold) (Some grain) None None
              (merge_args ∅ f3kdb_args) = Ok self ->
    ext_F3kdb_deband self blur = Ok blur ->
    outcome (debanders.f3kpf clip radius threshold grain f3kdb_args limflt_args) = Ok clip).
Proof.
  intros Hdiff Hlimit. split.
  - intros clip radius thr grains lthr elast bright_thr prefilter debander d kwargs blur diff
      Hcheck Hdeb Hfirst Hmk Hdb.
    unfold funcs.pfdeband, funcs.py_assert, try_except, call_prefilter, call, lift.
    rewrite Hcheck, Hfirst.
    destruct debander as [construct | d0]; cbn in Hdeb;
      [ subst construct | injection Hdeb as -> ].
    all: unfold_calls; cbn.
    all: rewrite Hmk; cbn; rewrite Hdb; cbn; rewrite Hlimit; cbn.
    all: now rewrite (Hdiff _ _ _ Hmk).
  - intros clip radius threshold grain f3kdb_args limflt_args fmt blur0 blur diff self
      Hfmt Hc0 Hc1 Hmk Hnew Hdb.
    unfold debanders.f3kpf. rewrite Hfmt. unfold_calls. cbn. cbn in Hc1.
    rewrite Hc0. cbn. rewrite Hc1. cbn. rewrite Hmk. cbn.
    rewrite Hnew. cbn. rewrite Hdb. cbn. rewrite Hlimit. cbn.
    now rewrite (Hdiff _ _ _ Hmk).
Qed.

(** X6.  [f3kpf], [pfdeband] and both [lfdeband] never call [grain]: the
    caller's grain goes into the debanding call itself, which comes before
    the limiting and merging steps. *)
Theorem single_pass_pipelines_never_grain :
  (forall clip radius threshold grain f3kdb_args limflt_args,
    let log := events (debanders.f3kpf clip radius threshold grain f3kdb_args limflt_args) in
    grain_inputs log = [] /\ Forall (fun g => g = Some grain) (f3kdb_new_grains log))
  /\
  (forall clip radius threshold grain f3kdb_args,
    let log := events (debanders.lfdeband clip radius threshold grain f3kdb_args) in
    grain_inputs log = [] /\ Forall (fun g => g = Some grain) (f3kdb_new_grains log))
  /\
  (forall clip radius thr grains lthr elast bright_thr (prefilter : VSFunction)
          (debander : DebanderT) kwargs,
    let log := events (funcs.pfdeband clip radius thr grains lthr elast bright_thr
                         prefilter debander kwargs) in
    grain_inputs log = [] /\ Forall (fun g => g = grains) (deband_grains log))
  /\
  (forall clip radius thr grains scale scaler upscaler (debander : DebanderT),
    let log := events (funcs.lfdeband clip radius thr grains scale scaler upscaler debander) in
    grain_inputs log = [] /\ Forall (fun g => g = grains) (deband_grains log)).
Proof.
  repeat apply conj.
  - intros clip radius threshold grain f3kdb_args limflt_args log. subst log.
    run_pipeline (debanders.f3kpf clip radius threshold grain f3kdb_args limflt_args);
      cbn; split; repeat constructor.
  - intros clip radius threshold grain f3kdb_args log. subst log.
    run_pipeline (debanders.lfdeband clip radius threshold grain f3kdb_args);
      cbn; split; repeat constructor.
  - intros clip radius thr grains lthr elast bright_thr prefilter debander kwargs log.
    subst log.
    run_pipeline (funcs.pfdeband clip radius thr grains lthr elast bright_thr
                    prefilter debander kwargs);
      cbn; split; repeat constructor.
  - intros clip radius thr grains scale scaler upscaler debander log. subst log.
    run_pipeline (funcs.lfdeband clip radius thr grains scale scaler upscaler debander);
      cbn; split; repeat constructor.
Qed.

End Prefiltered.

Section Downscaled.
Context {Clip : Type} {host : @Host Clip}.
Local Abbreviation DebanderT := (@DebanderT Clip) (only parsing).
Local Abbreviation ScalerT := (@ScalerT Clip) (only parsing).
Local Abbreviation Scaler := (@Scaler Clip) (only parsing).

(** X10.  [vsdeband.funcs.lfdeband] with [scale=0]: the division
    [w / scale] raises [ZeroDivisionError] after the debander and the scalers
    have been prepared and before the clip is converted, scaled or debanded. *)
Theorem funcs_lfdeband_zero_scale
    (clip : Clip) (fmt : VideoFormat) (radius : Z) (thr grains : IntOrList)
    (scaler : ScalerT) (upscaler : option ScalerT) (debander : DebanderT)
    (d : @Debander Clip) (sc up : Scaler) :
  let run := funcs.lfdeband clip radius thr grains 0 scaler upscaler debander in
  funcs.check_variable clip "lfdeband" = Ok true ->
  outcome (funcs.ensure_debander debander) = Ok d ->
  ext_ensure_obj None (Some scaler) = Ok sc ->
  ext_ensure_obj (Some sc) upscaler = Ok up ->
  format clip = Some fmt ->
  0 <= subsampling_w fmt ->
  0 <= subsampling_h fmt ->
  outcome run = Raise (Exc "ZeroDivisionError" "division by zero") /\
  depth_calls (events run) = [] /\
  scale_sizes (events run) = [] /\
  deband_inputs (events run) = [].
Proof.
  intros run Hcheck Hdeb Hsc Hup Hfmt Hw Hh. subst run.
  run_pipeline (funcs.lfdeband clip radius thr grains 0 scaler upscaler debander).
  all: cbn in *; simplify_eq; try lia; try congruence.
  all: repeat split.
Qed.


End Downscaled.

Section GuidedStages.
Context {Clip : Type} {host : @Host Clip}.

(** X13.  [guided_deband] with every optional stage off ([thr] falsy,
    [rad=0]): a run that returns has returned the output of [guided_filter]
    itself, called with the caller's arguments, and has made no limiting,
    mask or merge call. *)
Theorem guided_deband_optional_stages_off
    (clip : Clip) (radius : option IntOrList) (strength : pyfloat)
    (thr : option FloatOrList) (mode : GuidedFilterMode)
    (bin_thr : option FloatOrList) (planes : option IntOrList)
    (range_in : option ColorRange) (kwargs : Kwargs) (out : Clip) :
  let run := funcs.guided_deband clip radius strength thr mode (Some 0) bin_thr planes
               range_in kwargs in
  opt_truthy thr = false ->
  outcome run = Ok out ->
  (exists ps, ext_normalize_planes clip planes = Ok ps /\
              ext_guided_filter clip radius strength mode ps kwargs = Ok out) /\
  limit_filter_calls (events run) = [] /\
  mask_radii (events run) = [] /\
  removegrain_modes (events run) = [] /\
  masked_merge_calls (events run) = [].
Proof.
  intros run Hthr. subst run.
  run_pipeline (funcs.guided_deband clip radius strength thr mode (Some 0) bin_thr planes
                  range_in kwargs);
    intros; cbn in *; simplify_eq; try congruence.
  all: repeat split; eauto.
Qed.

(** X14.  The limiting step of [guided_deband] runs exactly when [thr] is
    truthy (so not for [None], [0.0] or an empty list, but for [[0.0]]); it
    limits the guided-filter output against the input clip with the
    thresholds cut to integers. *)
Theorem guided_deband_limit_step
    (clip : Clip) (radius : option IntOrList) (strength : pyfloat)
    (thr : option FloatOrList) (mode : GuidedFilterMode) (rad : option Z)
    (bin_thr : option FloatOrList) (planes : option IntOrList)
    (range_in : option ColorRange) (kwargs : Kwargs) (out : Clip) :
  let run := funcs.guided_deband clip radius strength thr mode rad bin_thr planes
               range_in kwargs in
  outcome run = Ok out ->
  exists ps filtered,
    ext_guided_filter clip radius strength mode ps kwargs = Ok filtered /\
    limit_filter_calls (events run)
    = if opt_truthy thr
      then [(filtered, clip, None,
             <["thr" := LInts (map int_of_float (to_arr_float (default (FloatVal (float_lit 0 1)) thr)))]> ∅)]
      else [].
Proof.
  intros run. subst run.
  run_pipeline (funcs.guided_deband clip radius strength thr mode rad bin_thr planes
                  range_in kwargs);
    intros; cbn in *; simplify_eq; try congruence.
  all: eexists _, _; split; [ eassumption | ].
  all: cbn; rewrite ?H; try reflexivity.
  all: match goal with H : truthy_float_or_list _ = _ |- _ => rewrite H end; reflexivity.
Qed.

(** X15.  The mask stage of [guided_deband], for a non-zero mask radius and
    a supplied [bin_thr]: the range mask is binarized only when the
    normalized thresholds are non-empty with a positive maximum (never for
    the default 0), it is then cleaned by the three [removegrain] passes in
    the order of the source, and the returned clip is the [MaskedMerge] of
    the filtered clip and the input under that mask. *)
Theorem guided_deband_mask_stage
    (clip : Clip) (fmt : VideoFormat) (radius : option IntOrList) (strength : pyfloat)
    (thr : option FloatOrList) (mode : GuidedFilterMode) (rad : option Z)
    (b : FloatOrList) (planes : option IntOrList)
    (range_in : option ColorRange) (kwargs : Kwargs) (bt : list pyfloat) (out : Clip) :
  let run := funcs.guided_deband clip radius strength thr mode rad (Some b) planes
               range_in kwargs in
  let r := fallback rad (py_ceil_div (height clip) 540) in
  format clip = Some fmt ->
  normalize_seq b (num_planes fmt) = Ok bt ->
  r <> 0 ->
  outcome run = Ok out ->
  mask_radii (events run) = [r; r] /\
  binarize_thresholds (events run)
  = (if negb (bool_decide (bt = [])) && max_is_positive bt then [bt] else []) /\
  removegrain_modes (events run) = [OPP_CLIP_AVG_FAST; SQUARE_BLUR; MIN_SHARP] /\
  exists filtered rmask ps,
    masked_merge_calls (events run) = [(filtered, clip, rmask, ps)] /\
    ext_MaskedMerge filtered clip rmask ps = Ok out.
Proof.
  intros run r Hfmt Hbt Hr. subst run r.
  run_pipeline (funcs.guided_deband clip radius strength thr mode rad (Some b) planes
                  range_in kwargs);
    intros; simplify_eq; try congruence.
  all: try lia.
  all: match goal with
       | H1 : normalize_seq ?v ?n = Ok ?x, H2 : normalize_seq ?v ?n = Ok ?y |- _ =>
         rewrite H1 in H2; injection H2 as ->
       end.
  all: repeat split; cbn;
    try match goal with H : _ && _ = _ |- _ => rewrite H end; try reflexivity.
  all: eexists _, _, _; split; [ reflexivity | eassumption ].
Qed.

End GuidedStages.

Section DebanderArgument.
Context {Clip : Type} {host : @Host Clip}.
Local Abbreviation Debander := (@Debander Clip) (only parsing).
Local Abbreviation ScalerT := (@ScalerT Clip) (only parsing).
Local Abbreviation VSFunction := (@VSFunction Clip) (only parsing).

(** X16.  The [debander] argument of [mdb_bilateral], [pfdeband] and
    [vsdeband.funcs.lfdeband]: a class is instantiated, without arguments, as
    the first call of the run, and when its constructor raises the run ends
    there with that exception; an instance is used as it is, with no
    constructor call. *)
Theorem debander_class_instantiated_first
    (clip : Clip) (radius scale : Z) (thr grains lthr : IntOrList) (elast : pyfloat)
    (bright_thr : option Z) (prefilter : VSFunction) (kwargs : Kwargs)
    (scaler : ScalerT) (upscaler : option ScalerT) :
  funcs.check_variable clip "mdb_bilateral" = Ok true ->
  funcs.check_variable clip "pfdeband" = Ok true ->
  funcs.check_variable clip "lfdeband" = Ok true ->
  (forall construct,
    let mdb := funcs.mdb_bilateral clip radius thr grains lthr elast bright_thr
                 (DebanderClass construct) in
    let pf := funcs.pfdeband clip radius thr grains lthr elast bright_thr prefilter
                (DebanderClass construct) kwargs in
    let lf := funcs.lfdeband clip radius thr grains scale scaler upscaler
                (DebanderClass construct) in
    head (events mdb) = Some EvDebanderNew /\
    head (events pf) = Some EvDebanderNew /\
    head (events lf) = Some EvDebanderNew /\
    (forall e, construct = Raise e ->
       mdb = ([EvDebanderNew], Raise e) /\
       pf = ([EvDebanderNew], Raise e) /\
       lf = ([EvDebanderNew], Raise e)))
  /\
  (forall d : Debander,
    existsb is_debander_new
      (events (funcs.mdb_bilateral clip radius thr grains lthr elast bright_thr
                 (DebanderInst d))) = false /\
    existsb is_debander_new
      (events (funcs.pfdeband clip radius thr grains lthr elast bright_thr prefilter
                 (DebanderInst d) kwargs)) = false /\
    existsb is_debander_new
      (events (funcs.lfdeband clip radius thr grains scale scaler upscaler
                 (DebanderInst d))) = false).
Proof.
  intros Hm Hp Hl. split.
  - intros construct mdb pf lf. subst mdb pf lf.
    repeat apply conj.
    + run_pipeline (funcs.mdb_bilateral clip radius thr grains lthr elast bright_thr
                      (DebanderClass construct)); try congruence; reflexivity.
    + run_pipeline (funcs.pfdeband clip radius thr grains lthr elast bright_thr prefilter
                      (DebanderClass construct) kwargs); try congruence; reflexivity.
    + run_pipeline (funcs.lfdeband clip radius thr grains scale scaler upscaler
                      (DebanderClass construct)); try congruence; reflexivity.
    + intros e ->.
      unfold funcs.mdb_bilateral, funcs.pfdeband, funcs.lfdeband, funcs.py_assert,
        funcs.ensure_debander, lift, call.
      rewrite Hm, Hp, Hl. repeat split.
  - intros d. repeat split.
    + run_pipeline (funcs.mdb_bilateral clip radius thr grains lthr elast bright_thr
                      (DebanderInst d)); reflexivity.
    + run_pipeline (funcs.pfdeband clip radius thr grains lthr elast bright_thr prefilter
                      (DebanderInst d) kwargs); reflexivity.
    + run_pipeline (funcs.lfdeband clip radius thr grains scale scaler upscaler
                      (DebanderInst d)); reflexivity.
Qed.

End DebanderArgument.

Section StageArithmetic.
Context {Clip : Type} {host : @Host Clip}.
Local Abbreviation DebanderT := (@DebanderT Clip) (only parsing).

Lemma halve_thr_spec (th : Z) :
  1 <= halve_thr th /\
  (th <= 1 -> halve_thr th = 1) /\
  (2 <= th -> 2 * halve_thr th <= th < 2 * halve_thr th + 2).
Proof.
  unfold halve_thr.
  pose proof (Z.div_mod th 2 ltac:(lia)). pose proof (Z.mod_pos_bound th 2 ltac:(lia)).
  lia.
Qed.

(** X17.  The thresholds of the first pass of [mdb_bilateral] are always a
    list, one entry per entry of [to_arr(thr)], each at least 1: an entry of
    the caller that is 1 or less (0 and negative values included) becomes 1,
    and an entry [th >= 2] becomes the half of [th] rounded down. *)
Theorem first_pass_thresholds_floor
    clip radius thr grains lthr elast bright_thr (debander : DebanderT) out :
  let run := funcs.mdb_bilateral clip radius thr grains lthr elast bright_thr debander in
  outcome run = Ok out ->
  exists first,
    head (deband_thrs (events run)) = Some (IntList first) /\
    Forall (fun th => 1 <= th) first /\
    Forall2 (fun th th1 => (th <= 1 -> th1 = 1) /\
                           (2 <= th -> 2 * th1 <= th < 2 * th1 + 2))
            (to_arr thr) first.
Proof.
  intros run. subst run.
  assert (Hall : forall l, Forall (fun th => 1 <= th) (map halve_thr l)).
  { induction l; constructor; [ apply halve_thr_spec | assumption ]. }
  assert (Hrel : forall l,
    Forall2 (fun th th1 => (th <= 1 -> th1 = 1) /\
                           (2 <= th -> 2 * th1 <= th < 2 * th1 + 2)) l (map halve_thr l)).
  { induction l; constructor; [ split; apply halve_thr_spec | assumption ]. }
  run_pipeline (funcs.mdb_bilateral clip radius thr grains lthr elast bright_thr debander);
    intros; subst; try discriminate.
  all: eexists; cbn; split; [ reflexivity | split; [ apply Hall | apply Hrel ] ].
Qed.


End StageArithmetic.

Section DepthAndSizes.
Context {Clip : Type} {host : @Host Clip}.
Local Abbreviation DebanderT := (@DebanderT Clip) (only parsing).
Local Abbreviation ScalerT := (@ScalerT Clip) (only parsing).

(** X19.  Depth conversions of the 16-bit pipelines, in a run that returns.
    [f3kbilateral] and [debandshit.debanders.lfdeband] always call [depth]
    twice: on the input with 16, and on the final clip with the input's
    depth.  [mdb_bilateral] skips the first call when the input already has
    16 bits. *)
Theorem depth_calls_of_16_bit_pipelines :
  (forall clip radius threshold grain f3kdb_args limflt_args fmt out,
    let run := debanders.f3kbilateral clip radius threshold grain f3kdb_args limflt_args in
    format clip = Some fmt ->
    outcome run = Ok out ->
    exists last, depth_calls (events run) = [(clip, 16); (last, bits_per_sample fmt)] /\
                 ext_depth last (bits_per_sample fmt) = Ok out)
  /\
  (forall clip radius threshold grain f3kdb_args fmt out,
    let run := debanders.lfdeband clip radius threshold grain f3kdb_args in
    format clip = Some fmt ->
    outcome run = Ok out ->
    exists last, depth_calls (events run) = [(clip, 16); (last, bits_per_sample fmt)] /\
                 ext_depth last (bits_per_sample fmt) = Ok out)
  /\
  (forall clip radius thr grains lthr elast bright_thr (debander : DebanderT) fmt out,
    let run := funcs.mdb_bilateral clip radius thr grains lthr elast bright_thr debander in
    format clip = Some fmt ->
    outcome run = Ok out ->
    exists last,
      depth_calls (events run)
      = (if bits_per_sample fmt =? 16 then [] else [(clip, 16)])
        ++ [(last, bits_per_sample fmt)] /\
      ext_depth last (bits_per_sample fmt) = Ok out).
Proof.
  repeat apply conj.
  - intros clip radius threshold grain f3kdb_args limflt_args fmt out run Hfmt. subst run.
    run_pipeline (debanders.f3kbilateral clip radius threshold grain f3kdb_args limflt_args);
      intros; simplify_eq.
    all: eexists; split; [ reflexivity | eassumption ].
  - intros clip radius threshold grain f3kdb_args fmt out run Hfmt. subst run.
    run_pipeline (debanders.lfdeband clip radius threshold grain f3kdb_args);
      intros; simplify_eq.
    all: eexists; split; [ reflexivity | eassumption ].
  - intros clip radius thr grains lthr elast bright_thr debander fmt out run Hfmt. subst run.
    run_pipeline (funcs.mdb_bilateral clip radius thr grains lthr elast bright_thr debander);
      intros; simplify_eq.
    all: eexists; split; [ cbn; rewrite ?H; try reflexivity | eassumption ].
    all: match goal with H : (_ =? 16) = _ |- _ => rewrite H end; reflexivity.
Qed.

(** X12.  The size [vsdeband.funcs.lfdeband] asks the downscaler for is a
    multiple of the chroma subsampling factors in both directions, whatever
    the clip and the (non-zero) scale. *)
Theorem funcs_lfdeband_downscale_congruent
    (clip : Clip) (fmt : VideoFormat) (radius : Z) (thr grains : IntOrList) (scale : Z)
    (scaler : ScalerT) (upscaler : option ScalerT) (debander : DebanderT) :
  format clip = Some fmt ->
  Forall (fun size : Z * Z =>
            fst size mod Z.shiftl 1 (subsampling_w fmt) = 0 /\
            snd size mod Z.shiftl 1 (subsampling_h fmt) = 0)
    (scale_sizes
       (events (funcs.lfdeband clip radius thr grains scale scaler upscaler debander))).
Proof.
  intros Hfmt.
  run_pipeline (funcs.lfdeband clip radius thr grains scale scaler upscaler debander);
    simplify_eq; cbn; repeat constructor; cbn.
  all: apply downscaled_size_congruent; rewrite Z.shiftl_1_l; apply Z.pow_pos_nonneg; lia.
Qed.

End DepthAndSizes.

(** ** The further properties on the reference hosts *)


Lemma grain_only_after_limiting_witness :
  let run := funcs.mdb_bilateral (host := Ref.host) Ref.clip8 16 (IntVal 65) (IntVal 5)
               (IntList [153; 0]) (float_lit 3 1) None (DebanderInst Ref.debander) in
  outcome run = Ok Ref.clip8 /\
  deband_grains (events run) = [IntVal 0; IntVal 0; IntVal 0].
Proof.
  split; [ reflexivity | ].
  exact (proj1 (proj1 (grain_only_after_limiting (host := Ref.host))
           Ref.clip8 16 (IntVal 65) (IntVal 5) (IntList [153; 0]) (float_lit 3 1) None
           (DebanderInst Ref.debander) Ref.clip8 eq_refl)).
Defined.

(** A caller's [thr] replaces the default 0.6 of [f3kbilateral]; [elast]
    keeps its default. *)
Example f3kbilateral_limit_keywords :
  let given : gmap string Lit := <["thr" := LFloat (float_lit 1 1)]> ∅ in
  (fun c => (snd c !! "thr", snd c !! "elast", snd c !! "thrc"))
    <$> limit_filter_calls
          (events (debanders.f3kbilateral (host := Ref.host) Ref.clip8 16 (IntVal 65)
                     (IntVal 0) None (Some given)))
  = [(Some (LFloat (float_lit 1 1)), Some (LFloat (float_lit 3 1)), Some LNone)].
Proof. vm_compute. reflexivity. Qed.

Lemma pfdeband_no_retry_after_success_witness :
  let run := funcs.pfdeband (host := Ref.host) Ref.clip8 16 (IntVal 30) (IntVal 0)
               (IntList [76; 0]) (float_lit 5 2) None funcs.default_prefilter
               (DebanderInst Ref.debander) ∅ in
  funcs.check_variable Ref.clip8 "pfdeband" = Ok true /\
  prefilter_calls (events run) = [Some 0].
Proof.
  split; [ reflexivity | ].
  exact (proj1 (pfdeband_no_retry_after_success (host := Ref.host)
           Ref.clip8 16 (IntVal 30) (IntVal 0) (IntList [76; 0]) (float_lit 5 2) None
           funcs.default_prefilter (DebanderInst Ref.debander) Ref.debander ∅ Ref.clip8
           eq_refl eq_refl eq_refl)).
Defined.

Lemma pfdeband_base_exception_propagates_witness :
  let run := funcs.pfdeband (host := Ref.host) Ref.clip8 16 (IntVal 30) (IntVal 0)
               (IntList [76; 0]) (float_lit 5 2) None interrupted_prefilter
               (DebanderInst Ref.debander) ∅ in
  interrupted_prefilter Ref.clip8 (Some 0) ∅ = Raise (BaseExc "KeyboardInterrupt") /\
  interrupted_prefilter Ref.clip8 None ∅ = Ok Ref.clip8 /\
  outcome run = Raise (BaseExc "KeyboardInterrupt") /\
  prefilter_calls (events run) = [Some 0].
Proof.
  split; [ reflexivity | split; [ reflexivity | ] ].
  exact (pfdeband_base_exception_propagates (host := Ref.host)
           Ref.clip8 16 (IntVal 30) (IntVal 0) (IntList [76; 0]) (float_lit 5 2) None
           interrupted_prefilter (DebanderInst Ref.debander) Ref.debander ∅
           "KeyboardInterrupt" eq_refl eq_refl eq_refl).
Defined.

Lemma pixel_diff_round_trip (a b diff : Z) :
  ext_MakeDiff (Host := Pixel.host) a b = Ok diff ->
  ext_MergeDiff (Host := Pixel.host) b diff = Ok a.
Proof. cbn. intros [= <-]. f_equal. lia. Qed.

Lemma prefiltered_pipelines_restore_detail_witness :
  outcome (funcs.pfdeband (host := Pixel.host) 100 16 (IntVal 30) (IntVal 0)
             (IntList [76; 0]) (float_lit 5 2) None (funcs.default_prefilter (host := Pixel.host))
             (DebanderInst Pixel.idle) ∅) = Ok 100.
Proof.
  exact (proj1 (prefiltered_pipelines_restore_detail (host := Pixel.host)
                  pixel_diff_round_trip (fun c kw => eq_refl))
           100 16 (IntVal 30) (IntVal 0) (IntList [76; 0]) (float_lit 5 2) None
           (funcs.default_prefilter (host := Pixel.host)) (DebanderInst Pixel.idle)
           Pixel.idle ∅ 50 50 eq_refl eq_refl eq_refl eq_refl eq_refl).
Defined.

(** With a debander that does change the blur, its change is what the output
    differs from the input by: blur 50, flattened to 48, so 100 becomes 98. *)
Example pfdeband_on_one_sample :
  outcome (funcs.pfdeband (host := Pixel.host) 100 16 (IntVal 30) (IntVal 0)
             (IntList [76; 0]) (float_lit 5 2) None (funcs.default_prefilter (host := Pixel.host))
             (DebanderInst Pixel.flatten) ∅) = Ok 98.
Proof. vm_compute. reflexivity. Qed.

Example single_pass_grain_argument :
  deband_grains
    (events (funcs.pfdeband (host := Ref.host) Ref.clip8 16 (IntVal 30) (IntVal 7)
               (IntList [76; 0]) (float_lit 5 2) None funcs.default_prefilter
               (DebanderInst Ref.debander) ∅))
  = [IntVal 7].
Proof. vm_compute. reflexivity. Qed.

Lemma debanders_lfdeband_round_trip_witness :
  let run := debanders.lfdeband (host := Ref.host) Ref.clip8 30 (IntVal 80) (IntVal 0) ∅ in
  outcome run = Ok Ref.clip8 /\
  width (Host := Ref.host) Ref.clip8 = 1920 /\ height (Host := Ref.host) Ref.clip8 = 1080.
Proof.
  split; [ reflexivity | ].
  exact (proj2 (debanders_lfdeband_round_trip (host := Ref.host)
                  Ref.clip8 30 (IntVal 80) (IntVal 0) ∅ Ref.clip8 ref_host_laws eq_refl)).
Defined.

Lemma debanders_lfdeband_sizes_witness :
  let odd : Ref.RClip := Ref.mkClip (Some (Ref.yuv420 8 INTEGER)) 1923 1081 in
  let run := debanders.lfdeband (host := Ref.host) odd 30 (IntVal 80) (IntVal 0) ∅ in
  outcome run = Ok odd /\
  exists dw dh,
    resize_sizes (events run) = [(dw, dh); (1923, 1081)] /\
    dw mod 2 = 0 /\ dh mod 2 = 0.
Proof.
  intros odd run. split; [ reflexivity | ].
  exact (debanders_lfdeband_sizes (host := Ref.host) odd 30 (IntVal 80) (IntVal 0) ∅
           (Ref.yuv420 8 INTEGER) odd eq_refl eq_refl).
Defined.

(** 1923 / 2 is 961.5 and rounds to the even 962; 1081 / 2 rounds to 540. *)
Example debanders_lfdeband_odd_sizes :
  resize_sizes
    (events (debanders.lfdeband (host := Ref.host)
               (Ref.mkClip (Some (Ref.yuv420 8 INTEGER)) 1923 1081) 30 (IntVal 80)
               (IntVal 0) ∅))
  = [(962, 540); (1923, 1081)].
Proof. vm_compute. reflexivity. Qed.

Lemma funcs_lfdeband_zero_scale_witness :
  let run := funcs.lfdeband (host := Ref.host) Ref.clip8 30 (IntVal 80) (IntVal 0) 0
               (ScalerClass "Spline64") None (DebanderInst Ref.debander) in
  funcs.check_variable Ref.clip8 "lfdeband" = Ok true /\
  outcome run = Raise (Exc "ZeroDivisionError" "division by zero") /\
  depth_calls (events run) = [] /\
  scale_sizes (events run) = [] /\
  deband_inputs (events run) = [].
Proof.
  split; [ reflexivity | ].
  exact (funcs_lfdeband_zero_scale (host := Ref.host) Ref.clip8 (Ref.yuv420 8 INTEGER)
           30 (IntVal 80) (IntVal 0) (ScalerClass "Spline64") None
           (DebanderInst Ref.debander) Ref.debander Ref.scaler Ref.scaler
           eq_refl eq_refl eq_refl eq_refl eq_refl ltac:(cbn; lia) ltac:(cbn; lia)).
Defined.


Lemma funcs_lfdeband_downscale_congruent_witness :
  let run := funcs.lfdeband (host := Ref.host)
               (Ref.mkClip (Some (Ref.yuv420 8 INTEGER)) 1923 1081) 30 (IntVal 80)
               (IntVal 0) 2 (ScalerClass "Spline64") None (DebanderInst Ref.debander) in
  scale_sizes (events run) = [(962, 540)] /\
  Forall (fun size : Z * Z => fst size mod 2 = 0 /\ snd size mod 2 = 0)
    (scale_sizes (events run)).
Proof.
  split; [ reflexivity | ].
  exact (funcs_lfdeband_downscale_congruent (host := Ref.host)
           (Ref.mkClip (Some (Ref.yuv420 8 INTEGER)) 1923 1081) (Ref.yuv420 8 INTEGER)
           30 (IntVal 80) (IntVal 0) 2 (ScalerClass "Spline64") None
           (DebanderInst Ref.debander) eq_refl).
Defined.

Lemma guided_deband_optional_stages_off_witness :
  let run := funcs.guided_deband (host := Ref.host) Ref.clip8 None (float_lit 3 10)
               (Some (FloatVal (float_lit 0 1))) GRADIENT (Some 0)
               (Some (FloatVal (float_lit 0 1))) None None ∅ in
  outcome run = Ok Ref.clip8 /\
  limit_filter_calls (events run) = [] /\
  mask_radii (events run) = [] /\
  removegrain_modes (events run) = [] /\
  masked_merge_calls (events run) = [].
Proof.
  split; [ reflexivity | ].
  exact (proj2 (guided_deband_optional_stages_off (host := Ref.host)
           Ref.clip8 None (float_lit 3 10) (Some (FloatVal (float_lit 0 1))) GRADIENT
           (Some (FloatVal (float_lit 0 1))) None None ∅ Ref.clip8 eq_refl eq_refl)).
Defined.

Lemma guided_deband_limit_step_witness :
  let run := funcs.guided_deband (host := Ref.host) Ref.clip8 None (float_lit 3 10)
               (Some (FloatList [float_lit 1 2; float_lit 5 2])) GRADIENT (Some 0)
               (Some (FloatVal (float_lit 0 1))) None None ∅ in
  outcome run = Ok Ref.clip8 /\
  length (limit_filter_calls (events run)) = 1%nat.
Proof.
  split; [ reflexivity | ].
  destruct (guided_deband_limit_step (host := Ref.host)
              Ref.clip8 None (float_lit 3 10)
              (Some (FloatList [float_lit 1 2; float_lit 5 2])) GRADIENT (Some 0)
              (Some (FloatVal (float_lit 0 1))) None None ∅ Ref.clip8 eq_refl)
    as (ps & filtered & _ & Hcalls).
  cbv zeta in *. rewrite Hcalls. reflexivity.
Defined.

(** 0.5 and 2.5 are cut to 0 and 2. *)
Example guided_deband_limit_thresholds :
  (fun c => snd c !! "thr")
    <$> limit_filter_calls
          (events (funcs.guided_deband (host := Ref.host) Ref.clip8 None (float_lit 3 10)
                     (Some (FloatList [float_lit 1 2; float_lit 5 2])) GRADIENT (Some 0)
                     (Some (FloatVal (float_lit 0 1))) None None ∅))
  = [Some (LInts [0; 2])].
Proof. vm_compute. reflexivity. Qed.

Lemma guided_deband_mask_stage_witness :
  let run := funcs.guided_deband (host := Ref.host) Ref.clip8 None (float_lit 3 10) None
               GRADIENT (Some 2) (Some (FloatVal (float_lit 1 255))) None None ∅ in
  outcome run = Ok Ref.clip8 /\
  mask_radii (events run) = [2; 2] /\
  binarize_thresholds (events run)
  = [[float_lit 1 255; float_lit 1 255; float_lit 1 255]] /\
  removegrain_modes (events run) = [OPP_CLIP_AVG_FAST; SQUARE_BLUR; MIN_SHARP].
Proof.
  split; [ reflexivity | ].
  destruct (guided_deband_mask_stage (host := Ref.host)
              Ref.clip8 (Ref.yuv420 8 INTEGER) None (float_lit 3 10) None GRADIENT (Some 2)
              (FloatVal (float_lit 1 255)) None None ∅
              [float_lit 1 255; float_lit 1 255; float_lit 1 255] Ref.clip8
              eq_refl eq_refl ltac:(cbn; lia) eq_refl)
    as (Hrad & Hbin & Hrg & _).
  cbv zeta. repeat split; assumption.
Defined.

Lemma debander_class_instantiated_first_witness :
  funcs.check_variable Ref.clip8 "mdb_bilateral" = Ok true /\
  funcs.mdb_bilateral (host := Ref.host) Ref.clip8 16 (IntVal 65) (IntVal 0)
    (IntList [153; 0]) (float_lit 3 1) None failing_debander_class
  = ([EvDebanderNew], Raise (Exc "TypeError" "missing required argument")).
Proof.
  split; [ reflexivity | ].
  exact (proj1 (proj2 (proj2 (proj2 (proj1
           (debander_class_instantiated_first (host := Ref.host)
              Ref.clip8 16 2 (IntVal 65) (IntVal 0) (IntList [153; 0]) (float_lit 3 1)
              None funcs.default_prefilter ∅ (ScalerClass "Spline64") None
              eq_refl eq_refl eq_refl)
           (Raise (Exc "TypeError" "missing required argument")))))
           (Exc "TypeError" "missing required argument") eq_refl)).
Defined.

Lemma first_pass_thresholds_floor_witness :
  let run := funcs.mdb_bilateral (host := Ref.host) Ref.clip8 16 (IntList [65; 1; 0])
               (IntVal 0) (IntList [153; 0]) (float_lit 3 1) None
               (DebanderInst Ref.debander) in
  outcome run = Ok Ref.clip8 /\
  exists first,
    head (deband_thrs (events run)) = Some (IntList first) /\
    Forall (fun th => 1 <= th) first /\
    Forall2 (fun th th1 => (th <= 1 -> th1 = 1) /\
                           (2 <= th -> 2 * th1 <= th < 2 * th1 + 2))
            [65; 1; 0] first.
Proof.
  split; [ reflexivity | ].
  exact (first_pass_thresholds_floor (host := Ref.host) Ref.clip8 16 (IntList [65; 1; 0])
           (IntVal 0) (IntList [153; 0]) (float_lit 3 1) None (DebanderInst Ref.debander)
           Ref.clip8 eq_refl).
Defined.

Example first_pass_thresholds_of_small_values :
  head (deband_thrs
          (events (funcs.mdb_bilateral (host := Ref.host) Ref.clip8 16 (IntList [65; 1; 0])
                     (IntVal 0) (IntList [153; 0]) (float_lit 3 1) None
                     (DebanderInst Ref.debander))))
  = Some (IntList [32; 1; 1]).
Proof. vm_compute. reflexivity. Qed.


Lemma depth_calls_of_16_bit_pipelines_witness :
  let run := funcs.mdb_bilateral (host := Ref.host) Ref.clip16 16 (IntVal 65) (IntVal 0)
               (IntList [153; 0]) (float_lit 3 1) None (DebanderInst Ref.debander) in
  outcome run = Ok Ref.clip16 /\
  exists last, depth_calls (events run) = [] ++ [(last, 16)] /\
               ext_depth (Host := Ref.host) last 16 = Ok Ref.clip16.
Proof.
  split; [ reflexivity | ].
  exact (proj2 (proj2 (depth_calls_of_16_bit_pipelines (host := Ref.host)))
           Ref.clip16 16 (IntVal 65) (IntVal 0) (IntList [153; 0]) (float_lit 3 1) None
           (DebanderInst Ref.debander) (Ref.yuv420 16 INTEGER) Ref.clip16 eq_refl eq_refl).
Defined.
